(** * GPU process energy meter: a model of [GPU/gpu_power_monitor2.py]

    The monitor samples the power draw of one GPU at a fixed nominal
    interval and splits every reading among the processes that currently
    use the device, in proportion to their memory footprint.  This file
    embeds [GPUPowerMonitor] (its constructor, [is_process_running],
    [sample], [run] and [report]) and proves the properties the design
    document states about attribution, filtering and reporting.

    Python floats are kept abstract behind the class [PyFloat].  The
    theorems are proved for the instance of exact rationals; the instance
    of IEEE binary64 numbers runs the very same definitions on concrete
    readings. *)

From Stdlib Require Import ZArith QArith Qfield List String Ascii Bool Lia Lqa.
From Stdlib Require Import DecimalString PrimFloat Uint63.
From Stdlib Require Import Setoid Morphisms Permutation.
Import ListNotations.

Local Open Scope string_scope.
Local Open Scope Z_scope.
Local Open Scope list_scope.

(** ** Exceptions *)

(** The two exceptions that can leave the code under study: a division by
    zero, and [sys.exit(1)] of the constructor. *)
Inductive PyError : Type :=
| ZeroDivisionError
| SystemExit (code : Z).

Inductive Exc (A : Type) : Type :=
| Ok (a : A)
| Raise (e : PyError).

Arguments Ok {A} a.
Arguments Raise {A} e.

Definition bind {A B : Type} (c : Exc A) (k : A -> Exc B) : Exc B :=
  match c with
  | Ok a => k a
  | Raise e => Raise e
  end.

Notation "x <- c ;; k" := (bind c (fun x => k))
  (at level 61, c at next level, right associativity).

(** ** Numbers *)

(** What the monitor asks of Python's [float]: conversion from [int],
    [+], [*], [/] (which raises on a zero divisor) and truthiness. *)
Class PyFloat (F : Type) : Type := {
  of_int : Z -> F;
  fadd : F -> F -> F;
  fmul : F -> F -> F;
  fdiv : F -> F -> Exc F;
  truthy : F -> bool
}.

(** [a / b] on two Python ints: true division.  Python rounds the exact
    quotient once; that is this definition in exact arithmetic, and in
    binary64 whenever both operands are below 2^53 in magnitude. *)
Definition int_truediv {F : Type} `{PyFloat F} (a b : Z) : Exc F :=
  fdiv (of_int a) (of_int b).

(** [x or d] where [x] is an int or [None]: [None] and [0] are falsy. *)
Definition py_or (x : option Z) (d : Z) : Z :=
  match x with
  | Some v => if v =? 0 then d else v
  | None => d
  end.

(** The builtin [sum] on ints. *)
Definition sum (l : list Z) : Z := fold_left Z.add l 0.

(** The builtin [sum] on floats: it starts from the int [0]. *)
Definition fsum {F : Type} `{PyFloat F} (l : list F) : F :=
  fold_left fadd l (of_int 0).

(** ** Strings *)

(** [str.lower] on ASCII text. *)
Definition lower_ascii (c : ascii) : ascii :=
  let n := nat_of_ascii c in
  if (65 <=? n)%nat && (n <=? 90)%nat then ascii_of_nat (n + 32) else c.

Fixpoint lower (s : string) : string :=
  match s with
  | EmptyString => EmptyString
  | String c r => String (lower_ascii c) (lower r)
  end.

(** [needle in hay] on strings. *)
Fixpoint py_in (needle hay : string) : bool :=
  if prefix needle hay then true
  else match hay with
       | EmptyString => false
       | String _ r => py_in needle r
       end.

(** [str(n)] for an int, as the f-string [f"PID_{p.pid}"] prints it. *)
Definition str (n : Z) : string := NilZero.string_of_int (Z.to_int n).

(** Truthiness of [self.target_process]: [None] and [""] are falsy. *)
Definition target_set (t : option string) : bool :=
  match t with
  | Some EmptyString => false
  | Some _ => true
  | None => false
  end.

(** ** The driver *)

(** One entry of [nvmlDeviceGet*RunningProcesses]; [usedGpuMemory] is
    [None] where the driver cannot tell (Windows). *)
Record ProcessInfo : Type := {
  pid : Z;
  usedGpuMemory : option Z
}.

(** What NVML answers during one tick.  [nvmlSystemGetProcessName] raises
    for some pids: [None]. *)
Record Nvml : Type := {
  nvmlDeviceGetPowerUsage : Z;
  nvmlDeviceGetUtilizationRates_gpu : Z;
  nvmlDeviceGetGraphicsRunningProcesses : list ProcessInfo;
  nvmlDeviceGetComputeRunningProcesses : list ProcessInfo;
  nvmlSystemGetProcessName : Z -> option string
}.

Definition running_processes (drv : Nvml) : list ProcessInfo :=
  nvmlDeviceGetGraphicsRunningProcesses drv
  ++ nvmlDeviceGetComputeRunningProcesses drv.

(** ** The monitor *)

Definition SAMPLE_INTERVAL_MS : Z := 10.

Section Monitor.

Context {F : Type} `{PyFloat F}.

(** A [defaultdict(float)] keeps its keys in insertion order. *)
Definition ledger : Type := list (string * F).

(** [d[k] += x] on a [defaultdict(float)]: a missing key is first created
    with [0.0]. *)
Fixpoint iadd (d : ledger) (k : string) (x : F) : ledger :=
  match d with
  | [] => [(k, fadd (of_int 0) x)]
  | (k', v) :: r =>
      if String.eqb k' k then (k', fadd v x) :: r
      else (k', v) :: iadd r k x
  end.

Record GPUPowerMonitor : Type := {
  target_process : option string;
  sample_interval : F;
  samples : list (F * F * Z);
  process_energy : ledger
}.

(** [is_process_running]: a process whose name cannot be read is passed
    over. *)
Fixpoint is_process_running_loop (target : string) (names : Z -> option string)
    (procs : list ProcessInfo) : bool :=
  match procs with
  | [] => false
  | p :: r =>
      match names (pid p) with
      | Some name =>
          if py_in (lower target) (lower name) then true
          else is_process_running_loop target names r
      | None => is_process_running_loop target names r
      end
  end.

Definition is_process_running (target : string) (drv : Nvml) : bool :=
  is_process_running_loop target (nvmlSystemGetProcessName drv)
    (running_processes drv).

(** [__init__]: [drv] is the driver as the constructor finds it. *)
Definition init (target : option string) (drv : Nvml) : Exc GPUPowerMonitor :=
  interval <- fdiv (of_int SAMPLE_INTERVAL_MS) (of_int 1000) ;;
  let self := {| target_process := target;
                 sample_interval := interval;
                 samples := [];
                 process_energy := [] |} in
  match target with
  | Some t =>
      if target_set target then
        if negb (is_process_running t drv) then Raise (SystemExit 1)
        else Ok self
      else Ok self
  | None => Ok self
  end.

(** The name under which [sample] books a process. *)
Definition display_name (drv : Nvml) (p : ProcessInfo) : string :=
  match nvmlSystemGetProcessName drv (pid p) with
  | Some name => name
  | None => ("PID_" ++ str (pid p))%string
  end.

(** The guard of [continue] in [sample]. *)
Definition skipped (target : option string) (name : string) : bool :=
  match target with
  | Some t => target_set target && negb (py_in (lower t) (lower name))
  | None => false
  end.

(** The [for p in procs] loop of [sample]. *)
Fixpoint sample_loop (target : option string) (interval power_w : F)
    (total_mem : Z) (drv : Nvml) (procs : list ProcessInfo) (energy : ledger)
    : Exc ledger :=
  match procs with
  | [] => Ok energy
  | p :: r =>
      let name := display_name drv p in
      if skipped target name then
        sample_loop target interval power_w total_mem drv r energy
      else
        let used_mem := py_or (usedGpuMemory p) 0 in
        mem_frac <- int_truediv used_mem total_mem ;;
        let proc_power := fmul power_w mem_frac in
        sample_loop target interval power_w total_mem drv r
          (iadd energy name (fmul proc_power interval))
  end.

Definition mem_values (procs : list ProcessInfo) : list Z :=
  map (fun p => py_or (usedGpuMemory p) 0) procs.

Definition total_mem (procs : list ProcessInfo) : Z :=
  py_or (Some (sum (mem_values procs))) 1.

(** [sample]: one tick, [now] being what [time.time()] returns.  The
    bare [except] around the name lookup is [display_name]; the only
    exception left is that of a division. *)
Definition sample (self : GPUPowerMonitor) (drv : Nvml) (now : F)
    : Exc GPUPowerMonitor :=
  power_w <- fdiv (of_int (nvmlDeviceGetPowerUsage drv)) (of_int 1000) ;;
  let util := nvmlDeviceGetUtilizationRates_gpu drv in
  let procs := running_processes drv in
  let total := total_mem procs in
  let samples' := samples self ++ [(now, power_w, util)] in
  energy' <- sample_loop (target_process self) (sample_interval self)
               power_w total drv procs (process_energy self) ;;
  Ok {| target_process := target_process self;
        sample_interval := sample_interval self;
        samples := samples';
        process_energy := energy' |}.

(** The [while] loop of [run]: one element of [ticks] per iteration that
    the clock (or Ctrl-C) lets happen. *)
Fixpoint run_loop (self : GPUPowerMonitor) (ticks : list (Nvml * F))
    : Exc GPUPowerMonitor :=
  match ticks with
  | [] => Ok self
  | (drv, now) :: r => self' <- sample self drv now ;; run_loop self' r
  end.

(** What [report] prints: the duration, the total in kWh and one line per
    ledger entry (name, kWh, percent).  The values are kept, not their
    formatted text; [save_csv], which [report] calls last, writes [samples]
    to a file and is left out. *)
Record Report : Type := {
  duration : F;
  total_energy_j : F;
  total_energy_kwh : F;
  per_process : list (string * F * F)
}.

Fixpoint report_lines (total : F) (energy : ledger)
    : Exc (list (string * F * F)) :=
  match energy with
  | [] => Ok []
  | (name, e_j) :: r =>
      e_kwh <- fdiv e_j (of_int 3600000) ;;
      pct <- (if truthy total
              then q <- fdiv e_j total ;; Ok (fmul q (of_int 100))
              else Ok (of_int 0)) ;;
      rest <- report_lines total r ;;
      Ok ((name, e_kwh, pct) :: rest)
  end.

Definition report (self : GPUPowerMonitor) (dur : F) : Exc Report :=
  let total := fsum (map (fun s => fmul (snd (fst s)) (sample_interval self))
                         (samples self)) in
  kwh <- fdiv total (of_int 3600000) ;;
  lines <- report_lines total (process_energy self) ;;
  Ok {| duration := dur;
        total_energy_j := total;
        total_energy_kwh := kwh;
        per_process := lines |}.

(** [run]: the loop, then the report over what was collected. *)
Definition run (self : GPUPowerMonitor) (ticks : list (Nvml * F)) (dur : F)
    : Exc (GPUPowerMonitor * Report) :=
  self' <- run_loop self ticks ;;
  r <- report self' dur ;;
  Ok (self', r).

(** The script: construct the monitor, then run it. *)
Definition main (target : option string) (drv0 : Nvml)
    (ticks : list (Nvml * F)) (dur : F) : Exc (GPUPowerMonitor * Report) :=
  monitor <- init target drv0 ;;
  run monitor ticks dur.

End Monitor.

Arguments ledger F : clear implicits.
Arguments GPUPowerMonitor F : clear implicits.
Arguments Report F : clear implicits.

(** ** Two kinds of numbers *)

(** Exact arithmetic: the rationals. *)
#[export] Instance Q_PyFloat : PyFloat Q := {|
  of_int := inject_Z;
  fadd := Qplus;
  fmul := Qmult;
  fdiv a b := if Qeq_bool b 0 then Raise ZeroDivisionError else Ok (a / b)%Q;
  truthy q := negb (Qeq_bool q 0)
|}.

(** [float(n)] in binary64, for an int below 2^63 in magnitude. *)
Definition float_of_int (n : Z) : float :=
  match n with
  | Z0 => PrimFloat.of_uint63 0%uint63
  | Zpos _ => PrimFloat.of_uint63 (Uint63.of_Z n)
  | Zneg p => PrimFloat.opp (PrimFloat.of_uint63 (Uint63.of_Z (Zpos p)))
  end.

(** IEEE binary64, rounding to nearest even as CPython does. *)
#[export] Instance float_PyFloat : PyFloat float := {|
  of_int := float_of_int;
  fadd := PrimFloat.add;
  fmul := PrimFloat.mul;
  fdiv a b := if PrimFloat.eqb b 0%float then Raise ZeroDivisionError
              else Ok (PrimFloat.div a b);
  truthy x := negb (PrimFloat.eqb x 0%float)
|}.

(** ** Reading a ledger *)

Fixpoint lookup {F : Type} (d : ledger F) (k : string) : option F :=
  match d with
  | [] => None
  | (k', v) :: r => if String.eqb k' k then Some v else lookup r k
  end.

Definition keys {F : Type} (d : ledger F) : list string := map fst d.

Fixpoint Qsum (l : list Q) : Q :=
  match l with
  | [] => 0%Q
  | x :: r => (x + Qsum r)%Q
  end.

(** The energy booked under [k], in joules; nothing booked is [0]. *)
Definition energy_of (d : ledger Q) (k : string) : Q :=
  match lookup d k with
  | Some v => v
  | None => 0%Q
  end.

(** The sum of all per-process energies. *)
Definition ledger_total (d : ledger Q) : Q := Qsum (map snd d).

(** ** Attribution as a mapping *)

(** The power reading in watts. *)
Definition power_watts (drv : Nvml) : Q :=
  (inject_Z (nvmlDeviceGetPowerUsage drv) / inject_Z 1000)%Q.

(** The energy one process is given for one tick. *)
Definition energy_delta (interval power_w : Q) (total : Z) (p : ProcessInfo)
    : Q :=
  (power_w * (inject_Z (py_or (usedGpuMemory p) 0) / inject_Z total)
   * interval)%Q.

(** The processes [sample] does not skip. *)
Definition included (target : option string) (drv : Nvml)
    (procs : list ProcessInfo) : list ProcessInfo :=
  filter (fun p => negb (skipped target (display_name drv p))) procs.

(** The deltas of one tick, in the order the loop books them. *)
Definition attribute (target : option string) (interval power_w : Q)
    (total : Z) (drv : Nvml) (procs : list ProcessInfo) : list (string * Q) :=
  map (fun p => (display_name drv p, energy_delta interval power_w total p))
      (included target drv procs).

(** Booking a list of deltas, one [+=] each. *)
Definition merge (energy : ledger Q) (ds : list (string * Q)) : ledger Q :=
  fold_left (fun e kx => iadd e (fst kx) (snd kx)) ds energy.

(** The deltas that one tick of [sample] books. *)
Definition tick_deltas (self : GPUPowerMonitor Q) (drv : Nvml)
    : list (string * Q) :=
  attribute (target_process self) (sample_interval self) (power_watts drv)
    (total_mem (running_processes drv)) drv (running_processes drv).

(** What a list of deltas holds for the name [k]. *)
Definition share_of (ds : list (string * Q)) (k : string) : Q :=
  Qsum (map snd (filter (fun kx => String.eqb (fst kx) k) ds)).

(** The energy measured so far: every recorded power reading held for one
    nominal interval. *)
Definition measured_energy (self : GPUPowerMonitor Q) : Q :=
  Qsum (map (fun s => (snd (fst s) * sample_interval self)%Q) (samples self)).

(** What a report line must say about a ledger entry, given the total. *)
Definition line_of (total : Q) (entry : string * Q) (line : string * Q * Q)
    : Prop :=
  fst (fst line) = fst entry
  /\ (snd (fst line) == snd entry / 3600000)%Q
  /\ (~ (total == 0)%Q -> (snd line == snd entry / total * 100)%Q)
  /\ ((total == 0)%Q -> (snd line == 0)%Q).

(** ** Readings a driver can give *)

(** The memory a process reports, nothing reported counting for [0]. *)
Definition reported_memory (p : ProcessInfo) : Z :=
  match usedGpuMemory p with
  | Some m => m
  | None => 0
  end.

(** The driver reports unsigned quantities: bytes and milliwatts. *)
Definition unsigned_memory (procs : list ProcessInfo) : bool :=
  forallb (fun p => match usedGpuMemory p with
                    | Some m => 0 <=? m
                    | None => true
                    end) procs.

Definition unsigned_reading (drv : Nvml) : bool :=
  (0 <=? nvmlDeviceGetPowerUsage drv)
  && unsigned_memory (running_processes drv).

(** Every process uses some memory. *)
Definition nonzero_memory (procs : list ProcessInfo) : bool :=
  forallb (fun p => negb (py_or (usedGpuMemory p) 0 =? 0)) procs.

(** A tick on which the device is in use and every process holds memory. *)
Definition busy (drv : Nvml) : bool :=
  match running_processes drv with
  | [] => false
  | _ :: _ => nonzero_memory (running_processes drv)
  end.

(** ** Variations of a monitor and of a reading *)

(** The monitor as [__init__] leaves it. *)
Definition fresh (target : option string) : GPUPowerMonitor Q :=
  {| target_process := target;
     sample_interval := (inject_Z SAMPLE_INTERVAL_MS / inject_Z 1000)%Q;
     samples := [];
     process_energy := [] |}.

(** The monitor with another filter. *)
Definition with_target {F : Type} (self : GPUPowerMonitor F)
    (t : option string) : GPUPowerMonitor F :=
  {| target_process := t;
     sample_interval := sample_interval self;
     samples := samples self;
     process_energy := process_energy self |}.

(** The constructor without a filter followed by one tick. *)
Definition first_tick {F : Type} `{PyFloat F} (drv : Nvml) (now : F)
    : Exc (GPUPowerMonitor F) :=
  monitor <- init None drv ;; sample monitor drv now.

Definition map_processes (f : ProcessInfo -> ProcessInfo) (drv : Nvml) : Nvml :=
  {| nvmlDeviceGetPowerUsage := nvmlDeviceGetPowerUsage drv;
     nvmlDeviceGetUtilizationRates_gpu := nvmlDeviceGetUtilizationRates_gpu drv;
     nvmlDeviceGetGraphicsRunningProcesses :=
       map f (nvmlDeviceGetGraphicsRunningProcesses drv);
     nvmlDeviceGetComputeRunningProcesses :=
       map f (nvmlDeviceGetComputeRunningProcesses drv);
     nvmlSystemGetProcessName := nvmlSystemGetProcessName drv |}.

(** The reading with every missing memory value replaced by [0]. *)
Definition fill_missing_proc (p : ProcessInfo) : ProcessInfo :=
  {| pid := pid p;
     usedGpuMemory := match usedGpuMemory p with
                      | Some m => Some m
                      | None => Some 0
                      end |}.

(** The reading with every missing or negative memory value replaced by
    [0]: what clamping, as the design document words it, would give. *)
Definition clamp_proc (p : ProcessInfo) : ProcessInfo :=
  {| pid := pid p;
     usedGpuMemory := match usedGpuMemory p with
                      | Some m => Some (Z.max 0 m)
                      | None => Some 0
                      end |}.

(** The driver that names every process [sample] would have to label. *)
Definition with_fallback_names (drv : Nvml) : Nvml :=
  {| nvmlDeviceGetPowerUsage := nvmlDeviceGetPowerUsage drv;
     nvmlDeviceGetUtilizationRates_gpu := nvmlDeviceGetUtilizationRates_gpu drv;
     nvmlDeviceGetGraphicsRunningProcesses :=
       nvmlDeviceGetGraphicsRunningProcesses drv;
     nvmlDeviceGetComputeRunningProcesses :=
       nvmlDeviceGetComputeRunningProcesses drv;
     nvmlSystemGetProcessName :=
       fun n => match nvmlSystemGetProcessName drv n with
                | Some name => Some name
                | None => Some ("PID_" ++ str n)%string
                end |}.

(** ** Readings used as examples *)

(** Pids 1 and 2 are the processes A and B; no other pid has a name. *)
Definition names_AB (n : Z) : option string :=
  if n =? 1 then Some "A" else if n =? 2 then Some "B" else None.

(** 100 W drawn, A holding 600 units of memory and B 200. *)
Definition scenario (unit : Z) : Nvml :=
  {| nvmlDeviceGetPowerUsage := 100000;
     nvmlDeviceGetUtilizationRates_gpu := 50;
     nvmlDeviceGetGraphicsRunningProcesses :=
       [ {| pid := 1; usedGpuMemory := Some (600 * unit) |};
         {| pid := 2; usedGpuMemory := Some (200 * unit) |} ];
     nvmlDeviceGetComputeRunningProcesses := [];
     nvmlSystemGetProcessName := names_AB |}.

(** 100 W drawn while no process is on the device. *)
Definition idle : Nvml :=
  {| nvmlDeviceGetPowerUsage := 100000;
     nvmlDeviceGetUtilizationRates_gpu := 0;
     nvmlDeviceGetGraphicsRunningProcesses := [];
     nvmlDeviceGetComputeRunningProcesses := [];
     nvmlSystemGetProcessName := fun _ => None |}.

(** Process 3, whose name cannot be read, reports no memory; B holds 200. *)
Definition windows_reading : Nvml :=
  {| nvmlDeviceGetPowerUsage := 100000;
     nvmlDeviceGetUtilizationRates_gpu := 50;
     nvmlDeviceGetGraphicsRunningProcesses :=
       [ {| pid := 3; usedGpuMemory := None |} ];
     nvmlDeviceGetComputeRunningProcesses :=
       [ {| pid := 2; usedGpuMemory := Some 200 |} ];
     nvmlSystemGetProcessName := names_AB |}.

(** A reports 0 bytes and process 3 reports nothing. *)
Definition zero_reading : Nvml :=
  {| nvmlDeviceGetPowerUsage := 100000;
     nvmlDeviceGetUtilizationRates_gpu := 50;
     nvmlDeviceGetGraphicsRunningProcesses :=
       [ {| pid := 1; usedGpuMemory := Some 0 |} ];
     nvmlDeviceGetComputeRunningProcesses :=
       [ {| pid := 3; usedGpuMemory := None |} ];
     nvmlSystemGetProcessName := names_AB |}.

(** ** The log and other readings of a run *)

(** The record that [sample] appends for a tick. *)
Definition record_of (tick : Nvml * Q) : Q * Q * Z :=
  (snd tick, power_watts (fst tick),
   nvmlDeviceGetUtilizationRates_gpu (fst tick)).

(** The rows [save_csv] hands to [csv.writer]: the header, then the samples
    as they were recorded.  The file and its name are left out. *)
Inductive csv_row (F : Type) : Type :=
| Header (cols : list string)
| Row (timestamp power_w : F) (gpu_util : Z).

Arguments Header {F} cols.
Arguments Row {F} timestamp power_w gpu_util.

Definition save_csv {F : Type} (self : GPUPowerMonitor F) : list (csv_row F) :=
  Header ["timestamp"; "power_w"; "gpu_util"]
  :: map (fun s => Row (fst (fst s)) (snd (fst s)) (snd s)) (samples self).

(** The names on the lines of a report, and their percentages. *)
Definition line_names {F : Type} (lines : list (string * F * F))
    : list string :=
  map (fun line => fst (fst line)) lines.

(** The memory held under the name [k] by the processes a tick books. *)
Definition memory_of_name (target : option string) (drv : Nvml)
    (procs : list ProcessInfo) (k : string) : Z :=
  sum (map reported_memory
           (filter (fun p => String.eqb (display_name drv p) k)
                   (included target drv procs))).

(** The same process counted in units [c] times smaller. *)
Definition scale_proc (c : Z) (p : ProcessInfo) : ProcessInfo :=
  {| pid := pid p;
     usedGpuMemory := option_map (Z.mul c) (usedGpuMemory p) |}.

(** The milliwatt readings of a run. *)
Definition power_readings (ticks : list (Nvml * Q)) : list Z :=
  map (fun t => nvmlDeviceGetPowerUsage (fst t)) ticks.

(** A monitor in binary64 that has booked 1.5 J for the program it tracks. *)
Definition tracking_monitor : GPUPowerMonitor float :=
  {| target_process := Some "Cyberpunk2077.exe";
     sample_interval := 0x1.47ae147ae147bp-7%float;
     samples := [];
     process_energy := [("Cyberpunk2077.exe", 1.5%float)] |}.

(** The driver listing compute processes where the graphics processes
    were, and the reverse. *)
Definition swap_lists (drv : Nvml) : Nvml :=
  {| nvmlDeviceGetPowerUsage := nvmlDeviceGetPowerUsage drv;
     nvmlDeviceGetUtilizationRates_gpu := nvmlDeviceGetUtilizationRates_gpu drv;
     nvmlDeviceGetGraphicsRunningProcesses :=
       nvmlDeviceGetComputeRunningProcesses drv;
     nvmlDeviceGetComputeRunningProcesses :=
       nvmlDeviceGetGraphicsRunningProcesses drv;
     nvmlSystemGetProcessName := nvmlSystemGetProcessName drv |}.

(** What the name [k] gains on one tick: the reading times the part of the
    denominator held by the processes booked under [k]. *)
Definition tick_gain (self : GPUPowerMonitor Q) (drv : Nvml) (k : string) : Q :=
  (power_watts drv
   * (inject_Z (memory_of_name (target_process self) drv
                  (running_processes drv) k)
      / inject_Z (total_mem (running_processes drv)))
   * sample_interval self)%Q.

(** * Proofs *)

(** ** Strings and labels *)

Example str_examples : str 0 = "0" /\ str 4242 = "4242" /\ str (-5) = "-5".
Proof. repeat split. Qed.

Example lower_example : lower "Cyberpunk2077.EXE" = "cyberpunk2077.exe".
Proof. reflexivity. Qed.

Example py_in_examples :
  py_in "punk" "cyberpunk2077.exe" = true
  /\ py_in "" "" = true
  /\ py_in "exe " "cyberpunk2077.exe" = false.
Proof. repeat split. Qed.

(** ** Ledgers *)

Lemma Qsum_app (a b : list Q) : (Qsum (a ++ b) == Qsum a + Qsum b)%Q.
Proof.
  induction a as [|x a IH]; simpl.
  - ring.
  - rewrite IH. ring.
Qed.

Lemma fold_left_Qplus (l : list Q) (a : Q) :
  (fold_left Qplus l a == a + Qsum l)%Q.
Proof.
  revert a. induction l as [|x l IH]; intros a; simpl.
  - ring.
  - rewrite IH. ring.
Qed.

Lemma fsum_Qsum (l : list Q) : (fsum l == Qsum l)%Q.
Proof.
  unfold fsum. simpl. rewrite fold_left_Qplus. ring.
Qed.

Lemma ledger_total_iadd (d : ledger Q) (k : string) (x : Q) :
  (ledger_total (iadd d k x) == ledger_total d + x)%Q.
Proof.
  unfold ledger_total.
  induction d as [|[k' v] d IH]; simpl.
  - ring.
  - destruct (String.eqb k' k); simpl.
    + ring.
    + rewrite IH. ring.
Qed.

Lemma lookup_iadd_same (d : ledger Q) (k : string) (x : Q) :
  exists v, lookup (iadd d k x) k = Some v /\ (v == energy_of d k + x)%Q.
Proof.
  unfold energy_of.
  induction d as [|[k' v] d IH]; simpl.
  - rewrite String.eqb_refl. eexists. split; [reflexivity | ring].
  - destruct (String.eqb k' k) eqn:E; simpl; rewrite E.
    + eexists. split; [reflexivity | ring].
    + exact IH.
Qed.

Lemma lookup_iadd_other {F : Type} `{PyFloat F} (d : ledger F)
    (k k' : string) (x : F) :
  k <> k' -> lookup (iadd d k x) k' = lookup d k'.
Proof.
  intros Hne.
  induction d as [|[k0 v] d IH]; simpl.
  - destruct (String.eqb k k') eqn:E; [|reflexivity].
    apply String.eqb_eq in E. contradiction.
  - destruct (String.eqb k0 k) eqn:E; simpl.
    + apply String.eqb_eq in E. subst k0.
      destruct (String.eqb k k') eqn:E'; [|reflexivity].
      apply String.eqb_eq in E'. contradiction.
    + rewrite IH. reflexivity.
Qed.

Lemma energy_of_iadd (d : ledger Q) (k k' : string) (x : Q) :
  (energy_of (iadd d k x) k'
   == energy_of d k' + (if String.eqb k k' then x else 0))%Q.
Proof.
  destruct (String.eqb k k') eqn:E.
  - apply String.eqb_eq in E. subst k'.
    destruct (lookup_iadd_same d k x) as [v [Hl Hv]].
    unfold energy_of at 1. rewrite Hl. exact Hv.
  - apply String.eqb_neq in E.
    unfold energy_of. rewrite (lookup_iadd_other d k k' x E). ring.
Qed.

Lemma keys_iadd {F : Type} `{PyFloat F} (d : ledger F) (k : string) (x : F) :
  keys (iadd d k x) = if in_dec string_dec k (keys d) then keys d
                      else keys d ++ [k].
Proof.
  unfold keys.
  induction d as [|[k0 v] d IH]; simpl.
  - reflexivity.
  - destruct (String.eqb k0 k) eqn:E; simpl.
    + apply String.eqb_eq in E. subst k0.
      destruct (string_dec k k); [reflexivity | contradiction].
    + apply String.eqb_neq in E.
      destruct (string_dec k0 k); [contradiction|].
      rewrite IH.
      destruct (in_dec string_dec k (map fst d)); reflexivity.
Qed.

Lemma lookup_None_keys {F : Type} (d : ledger F) (k : string) :
  lookup d k = None <-> ~ In k (keys d).
Proof.
  unfold keys.
  induction d as [|[k0 v] d IH]; simpl.
  - tauto.
  - destruct (String.eqb k0 k) eqn:E.
    + apply String.eqb_eq in E. split; [discriminate | tauto].
    + apply String.eqb_neq in E. rewrite IH. tauto.
Qed.

Lemma ledger_total_merge (ds : list (string * Q)) (e : ledger Q) :
  (ledger_total (merge e ds) == ledger_total e + Qsum (map snd ds))%Q.
Proof.
  unfold merge. revert e.
  induction ds as [|[k x] ds IH]; intros e; simpl.
  - ring.
  - rewrite IH, ledger_total_iadd. ring.
Qed.

Lemma energy_of_merge (ds : list (string * Q)) (e : ledger Q) (k : string) :
  (energy_of (merge e ds) k == energy_of e k + share_of ds k)%Q.
Proof.
  unfold merge, share_of. revert e.
  induction ds as [|[k0 x] ds IH]; intros e; simpl.
  - ring.
  - rewrite IH, energy_of_iadd.
    destruct (String.eqb k0 k); simpl; ring.
Qed.

Lemma lookup_merge_other (ds : list (string * Q)) (e : ledger Q) (k : string) :
  ~ In k (map fst ds) -> lookup (merge e ds) k = lookup e k.
Proof.
  unfold merge. revert e.
  induction ds as [|[k0 x] ds IH]; intros e Hn; simpl in *.
  - reflexivity.
  - rewrite IH by tauto.
    apply lookup_iadd_other. tauto.
Qed.

Lemma keys_iadd_In {F : Type} `{PyFloat F} (d : ledger F) (k k' : string)
    (x : F) :
  In k' (keys (iadd d k x)) <-> In k' (keys d) \/ k' = k.
Proof.
  rewrite keys_iadd.
  destruct (in_dec string_dec k (keys d)) as [Hin|Hn].
  - split; [tauto|]. intros [Hk|Hk]; [assumption | subst; assumption].
  - rewrite in_app_iff. simpl. split.
    + intros [Hk|[Hk|[]]]; [tauto | right; symmetry; assumption].
    + intros [Hk|Hk]; [tauto | right; left; symmetry; assumption].
Qed.

Lemma keys_merge_In (ds : list (string * Q)) (e : ledger Q) (k : string) :
  In k (keys (merge e ds)) <-> In k (keys e) \/ In k (map fst ds).
Proof.
  unfold merge. revert e.
  induction ds as [|[k0 x] ds IH]; intros e; simpl.
  - tauto.
  - rewrite IH, keys_iadd_In. simpl. intuition congruence.
Qed.

(** ** The loop of [sample] books exactly the attributed deltas *)

Lemma py_or_Some_nonzero (s d : Z) : d <> 0 -> py_or (Some s) d <> 0.
Proof.
  intros Hd. unfold py_or.
  destruct (s =? 0) eqn:E; [assumption|].
  apply Z.eqb_neq. assumption.
Qed.

Lemma total_mem_nonzero (procs : list ProcessInfo) : total_mem procs <> 0.
Proof. unfold total_mem. apply py_or_Some_nonzero. discriminate. Qed.

Lemma Qeq_bool_inject_Z (z : Z) : Qeq_bool (inject_Z z) 0 = (z =? 0).
Proof.
  unfold Qeq_bool, inject_Z. simpl.
  rewrite Z.mul_1_r. reflexivity.
Qed.

Lemma int_truediv_Q (a b : Z) :
  b <> 0 -> int_truediv a b = Ok (inject_Z a / inject_Z b)%Q.
Proof.
  intros Hb. unfold int_truediv. simpl.
  rewrite Qeq_bool_inject_Z.
  apply Z.eqb_neq in Hb. rewrite Hb. reflexivity.
Qed.

Lemma sample_loop_Q (target : option string) (interval power_w : Q)
    (total : Z) (drv : Nvml) (procs : list ProcessInfo) (energy : ledger Q) :
  total <> 0 ->
  sample_loop target interval power_w total drv procs energy
  = Ok (merge energy (attribute target interval power_w total drv procs)).
Proof.
  intros Ht. revert energy.
  induction procs as [|p procs IH]; intros energy.
  - reflexivity.
  - cbn [sample_loop].
    unfold attribute, included. cbn [filter].
    destruct (skipped target (display_name drv p)); cbn [negb].
    + apply IH.
    + rewrite (int_truediv_Q _ _ Ht). cbn [bind].
      rewrite IH. reflexivity.
Qed.

(** [sample] always returns: it records the reading and books the
    attributed deltas. *)
Lemma sample_Q (self : GPUPowerMonitor Q) (drv : Nvml) (now : Q) :
  sample self drv now
  = Ok {| target_process := target_process self;
          sample_interval := sample_interval self;
          samples := samples self
                     ++ [(now, power_watts drv,
                          nvmlDeviceGetUtilizationRates_gpu drv)];
          process_energy :=
            merge (process_energy self)
              (attribute (target_process self) (sample_interval self)
                 (power_watts drv) (total_mem (running_processes drv)) drv
                 (running_processes drv)) |}.
Proof.
  unfold sample. cbn [fdiv Q_PyFloat of_int].
  rewrite Qeq_bool_inject_Z. cbn [Z.eqb bind].
  rewrite sample_loop_Q by apply total_mem_nonzero.
  reflexivity.
Qed.

(** ** Conservation *)

Lemma sum_cons (x : Z) (l : list Z) : sum (x :: l) = x + sum l.
Proof.
  unfold sum. simpl.
  assert (G : forall l a b, fold_left Z.add l (a + b) = a + fold_left Z.add l b).
  { clear. induction l as [|y l IH]; intros a b; simpl.
    - reflexivity.
    - rewrite <- Z.add_assoc. apply IH. }
  rewrite <- G. f_equal. lia.
Qed.

Lemma skipped_no_target (target : option string) (name : string) :
  target_set target = false -> skipped target name = false.
Proof.
  intros Ht. unfold skipped. destruct target; [|reflexivity].
  rewrite Ht. reflexivity.
Qed.

Lemma included_no_target (target : option string) (drv : Nvml)
    (procs : list ProcessInfo) :
  target_set target = false -> included target drv procs = procs.
Proof.
  intros Ht. unfold included.
  induction procs as [|p procs IH]; simpl.
  - reflexivity.
  - rewrite (skipped_no_target _ _ Ht). simpl. rewrite IH. reflexivity.
Qed.

(** All the deltas of a list of processes add up to the power times the
    share of the denominator that these processes hold. *)
Lemma Qsum_energy_delta (interval power_w : Q) (total : Z) (drv : Nvml)
    (procs : list ProcessInfo) :
  total <> 0 ->
  (Qsum (map snd (map (fun p => (display_name drv p,
                                 energy_delta interval power_w total p)) procs))
   == power_w * (inject_Z (sum (mem_values procs)) / inject_Z total)
      * interval)%Q.
Proof.
  intros Ht.
  assert (Hq : ~ (inject_Z total == 0)%Q).
  { intros E. apply Ht. unfold Qeq in E. simpl in E. lia. }
  induction procs as [|p procs IH].
  - simpl. unfold sum. simpl. field. exact Hq.
  - cbn [map snd Qsum mem_values]. fold (mem_values procs).
    rewrite IH, sum_cons, inject_Z_plus. unfold energy_delta.
    field. exact Hq.
Qed.

Lemma py_or_0_nonneg (x : option Z) :
  match x with Some m => 0 <=? m | None => true end = true ->
  0 <= py_or x 0.
Proof.
  destruct x as [m|]; simpl; [|lia].
  intros Hm. apply Z.leb_le in Hm.
  destruct (m =? 0); lia.
Qed.

Lemma sum_mem_values_nonneg (procs : list ProcessInfo) :
  unsigned_memory procs = true -> 0 <= sum (mem_values procs).
Proof.
  unfold unsigned_memory.
  induction procs as [|p procs IH]; intros Hu.
  - unfold sum. simpl. lia.
  - simpl in Hu. apply andb_prop in Hu. destruct Hu as [Hp Hr].
    cbn [mem_values map]. rewrite sum_cons.
    pose proof (py_or_0_nonneg _ Hp). specialize (IH Hr).
    unfold mem_values in IH. lia.
Qed.

Lemma sum_mem_values_pos (procs : list ProcessInfo) :
  procs <> [] ->
  unsigned_memory procs = true ->
  nonzero_memory procs = true ->
  0 < sum (mem_values procs).
Proof.
  intros Hne Hu Hnz.
  destruct procs as [|p procs]; [contradiction|].
  cbn [mem_values map]. rewrite sum_cons.
  simpl in Hu, Hnz.
  apply andb_prop in Hu. destruct Hu as [Hp Hr].
  apply andb_prop in Hnz. destruct Hnz as [Hz _].
  pose proof (py_or_0_nonneg _ Hp).
  pose proof (sum_mem_values_nonneg procs Hr) as Hs. unfold mem_values in Hs.
  apply negb_true_iff, Z.eqb_neq in Hz. lia.
Qed.

Lemma total_mem_sum (procs : list ProcessInfo) :
  sum (mem_values procs) <> 0 -> total_mem procs = sum (mem_values procs).
Proof.
  intros Hs. unfold total_mem, py_or.
  apply Z.eqb_neq in Hs. rewrite Hs. reflexivity.
Qed.

Lemma sample_tick_deltas (self : GPUPowerMonitor Q) (drv : Nvml) (now : Q) :
  exists self',
    sample self drv now = Ok self'
    /\ target_process self' = target_process self
    /\ sample_interval self' = sample_interval self
    /\ samples self' = samples self
                       ++ [(now, power_watts drv,
                            nvmlDeviceGetUtilizationRates_gpu drv)]
    /\ process_energy self' = merge (process_energy self)
                                    (tick_deltas self drv).
Proof.
  eexists. split; [apply sample_Q|]. repeat split; reflexivity.
Qed.

(** With no filter and a denominator that is the true sum, the deltas of a
    tick add up to the whole reading. *)
Lemma tick_deltas_sum (self : GPUPowerMonitor Q) (drv : Nvml) :
  target_set (target_process self) = false ->
  sum (mem_values (running_processes drv)) <> 0 ->
  (Qsum (map snd (tick_deltas self drv))
   == power_watts drv * sample_interval self)%Q.
Proof.
  intros Ht Hs. unfold tick_deltas, attribute.
  rewrite (included_no_target _ _ _ Ht).
  rewrite Qsum_energy_delta by apply total_mem_nonzero.
  rewrite (total_mem_sum _ Hs).
  assert (Hq : ~ (inject_Z (sum (mem_values (running_processes drv))) == 0)%Q).
  { intros E. apply Hs. unfold Qeq in E. simpl in E. lia. }
  field. exact Hq.
Qed.

Lemma sample_books_all (self : GPUPowerMonitor Q) (drv : Nvml) (now : Q) :
  target_set (target_process self) = false ->
  sum (mem_values (running_processes drv)) <> 0 ->
  exists self',
    sample self drv now = Ok self'
    /\ (ledger_total (process_energy self')
        == ledger_total (process_energy self)
           + power_watts drv * sample_interval self)%Q.
Proof.
  intros Ht Hs. eexists. split; [apply sample_Q|].
  cbn [process_energy].
  rewrite ledger_total_merge.
  fold (tick_deltas self drv).
  rewrite (tick_deltas_sum self drv Ht Hs). reflexivity.
Qed.

(** C1, as amended: for every snapshot with at least one process, no name
    filter active and every process having non-zero used memory (memory being
    the unsigned byte count the driver reports), the energy deltas that one
    tick of [sample] books add up to exactly
    [power_watts * sample_interval], in exact arithmetic, and the sum of the
    per-process energies grows by that much. *)
Theorem conservation (self : GPUPowerMonitor Q) (drv : Nvml) (now : Q) :
  target_set (target_process self) = false ->
  running_processes drv <> [] ->
  unsigned_memory (running_processes drv) = true ->
  nonzero_memory (running_processes drv) = true ->
  exists self',
    sample self drv now = Ok self'
    /\ process_energy self'
       = merge (process_energy self) (tick_deltas self drv)
    /\ (Qsum (map snd (tick_deltas self drv))
        == power_watts drv * sample_interval self)%Q
    /\ (ledger_total (process_energy self')
        == ledger_total (process_energy self)
           + power_watts drv * sample_interval self)%Q.
Proof.
  intros Ht Hne Hu Hnz.
  assert (Hs : sum (mem_values (running_processes drv)) <> 0).
  { pose proof (sum_mem_values_pos _ Hne Hu Hnz). lia. }
  destruct (sample_tick_deltas self drv now) as [self' [Hok [_ [_ [_ He]]]]].
  exists self'. split; [exact Hok|]. split; [exact He|].
  split; [exact (tick_deltas_sum self drv Ht Hs)|].
  rewrite He, ledger_total_merge, (tick_deltas_sum self drv Ht Hs).
  reflexivity.
Qed.

Lemma conservation_witness :
  exists self',
    sample (fresh None) (scenario 1000000) 0%Q = Ok self'
    /\ process_energy self'
       = merge (process_energy (fresh None))
               (tick_deltas (fresh None) (scenario 1000000))
    /\ (Qsum (map snd (tick_deltas (fresh None) (scenario 1000000)))
        == power_watts (scenario 1000000) * sample_interval (fresh None))%Q
    /\ (ledger_total (process_energy self')
        == ledger_total (process_energy (fresh None))
           + power_watts (scenario 1000000) * sample_interval (fresh None))%Q.
Proof.
  apply conservation; [reflexivity | discriminate | reflexivity | reflexivity].
Defined.

(** C1 as first stated fails on an idle device: no filter, no process
    reporting zero memory (there is none at all), 100 W drawn, and the tick
    books nothing although the reading is worth one joule. *)
Lemma conservation_fails_when_idle :
  target_set (target_process (fresh None)) = false
  /\ nonzero_memory (running_processes idle) = true
  /\ exists self',
       sample (fresh None) idle 0%Q = Ok self'
       /\ process_energy self' = []
       /\ tick_deltas (fresh None) idle = []
       /\ (power_watts idle * sample_interval (fresh None) == 1)%Q
       /\ ~ (ledger_total (process_energy self')
             == ledger_total (process_energy (fresh None))
                + power_watts idle * sample_interval (fresh None))%Q.
Proof.
  split; [reflexivity|]. split; [reflexivity|].
  eexists. split; [vm_compute; reflexivity|].
  split; [reflexivity|]. split; [reflexivity|].
  split; [vm_compute; reflexivity|].
  vm_compute. discriminate.
Qed.

(** ** The concrete scenario *)

(** C2: 100 W, A with 600 MB and B with 200 MB, the nominal interval of
    0.01 s and no filter.  One tick books 0.75 J for A and 0.25 J for B,
    1.0 J in all, which is 100 x 0.01: in exact arithmetic, and bit for bit
    in binary64, where the ledger holds the floats 0.75 and 0.25
    ([0x1.47ae147ae147bp-7] is the float that Python writes [0.01]). *)
Theorem concrete_scenario :
  (forall now : Q,
     exists m,
       first_tick (scenario 1000000) now = Ok m
       /\ sample_interval m == 1 # 100
       /\ power_watts (scenario 1000000) == 100
       /\ keys (process_energy m) = ["A"; "B"]
       /\ energy_of (process_energy m) "A" == 3 # 4
       /\ energy_of (process_energy m) "B" == 1 # 4
       /\ ledger_total (process_energy m) == 1
       /\ 100 * (1 # 100) == 1)%Q
  /\ (forall now : float,
        exists m,
          first_tick (scenario 1000000) now = Ok m
          /\ sample_interval m = 0x1.47ae147ae147bp-7%float
          /\ process_energy m = [("A", 0.75%float); ("B", 0.25%float)]
          /\ fsum (map snd (process_energy m)) = 1%float
          /\ PrimFloat.mul 100 0x1.47ae147ae147bp-7 = 1%float).
Proof.
  split; intros now.
  - eexists. split; [vm_compute; reflexivity|].
    repeat split; vm_compute; reflexivity.
  - eexists. split; [vm_compute; reflexivity|].
    repeat split; vm_compute; reflexivity.
Qed.

(** The same with megabytes of 2^20 bytes. *)
Lemma concrete_scenario_MiB :
  (forall now : Q,
     exists m,
       first_tick (scenario 1048576) now = Ok m
       /\ energy_of (process_energy m) "A" == 3 # 4
       /\ energy_of (process_energy m) "B" == 1 # 4
       /\ ledger_total (process_energy m) == 1)%Q
  /\ (forall now : float,
        exists m,
          first_tick (scenario 1048576) now = Ok m
          /\ process_energy m = [("A", 0.75%float); ("B", 0.25%float)]).
Proof.
  split; intros now.
  - eexists. split; [vm_compute; reflexivity|].
    repeat split; vm_compute; reflexivity.
  - eexists. split; [vm_compute; reflexivity|].
    repeat split; vm_compute; reflexivity.
Qed.

(** ** Signs *)

Lemma Qsum_nonneg (l : list Q) :
  Forall (fun x => 0 <= x)%Q l -> (0 <= Qsum l)%Q.
Proof.
  induction 1 as [|x l Hx _ IH]; simpl.
  - apply Qle_refl.
  - replace 0%Q with (0 + 0)%Q by reflexivity.
    apply Qplus_le_compat; assumption.
Qed.

Lemma inject_Z_nonneg (z : Z) : 0 <= z -> (0 <= inject_Z z)%Q.
Proof. intros Hz. unfold Qle. simpl. lia. Qed.

Lemma energy_delta_nonneg (interval power_w : Q) (total : Z)
    (p : ProcessInfo) :
  (0 <= interval)%Q -> (0 <= power_w)%Q -> 0 < total ->
  0 <= py_or (usedGpuMemory p) 0 ->
  (0 <= energy_delta interval power_w total p)%Q.
Proof.
  intros Hi Hp Ht Hm. unfold energy_delta.
  apply Qmult_le_0_compat; [|exact Hi].
  apply Qmult_le_0_compat; [exact Hp|].
  unfold Qdiv. apply Qmult_le_0_compat.
  - apply inject_Z_nonneg. exact Hm.
  - apply Qinv_le_0_compat. apply inject_Z_nonneg. lia.
Qed.

Lemma power_watts_nonneg (drv : Nvml) :
  0 <= nvmlDeviceGetPowerUsage drv -> (0 <= power_watts drv)%Q.
Proof.
  intros Hp. unfold power_watts, Qdiv.
  apply Qmult_le_0_compat.
  - apply inject_Z_nonneg. exact Hp.
  - apply Qinv_le_0_compat. apply inject_Z_nonneg. lia.
Qed.

Lemma total_mem_pos (procs : list ProcessInfo) :
  unsigned_memory procs = true -> 0 < total_mem procs.
Proof.
  intros Hu. pose proof (sum_mem_values_nonneg procs Hu) as Hs.
  unfold total_mem, py_or.
  destruct (sum (mem_values procs) =? 0) eqn:E; [lia|].
  apply Z.eqb_neq in E. lia.
Qed.

Lemma unsigned_memory_In (procs : list ProcessInfo) (p : ProcessInfo) :
  unsigned_memory procs = true -> In p procs ->
  0 <= py_or (usedGpuMemory p) 0.
Proof.
  unfold unsigned_memory. rewrite forallb_forall.
  intros Hu Hin. apply py_or_0_nonneg. apply Hu. exact Hin.
Qed.

(** On an unsigned reading every delta is non-negative, whatever the
    denominator [sample] is going to use. *)
Lemma attribute_nonneg (target : option string) (interval power_w : Q)
    (total : Z) (drv : Nvml) (procs : list ProcessInfo) :
  (0 <= interval)%Q -> (0 <= power_w)%Q -> 0 < total ->
  unsigned_memory procs = true ->
  Forall (fun kx => 0 <= snd kx)%Q
         (attribute target interval power_w total drv procs).
Proof.
  intros Hi Hp Ht Hu. unfold attribute, included.
  apply Forall_forall. intros [k x] Hin.
  apply in_map_iff in Hin. destruct Hin as [p [Hkx Hin]].
  apply filter_In in Hin. destruct Hin as [Hin _].
  inversion Hkx; subst. cbn [snd].
  apply energy_delta_nonneg; try assumption.
  apply (unsigned_memory_In procs); assumption.
Qed.

Lemma share_of_nonneg (ds : list (string * Q)) (k : string) :
  Forall (fun kx => 0 <= snd kx)%Q ds -> (0 <= share_of ds k)%Q.
Proof.
  intros Hds. unfold share_of. apply Qsum_nonneg.
  apply Forall_forall. intros x Hin.
  apply in_map_iff in Hin. destruct Hin as [kx [Hx Hin]]. subst x.
  apply filter_In in Hin. destruct Hin as [Hin _].
  rewrite Forall_forall in Hds. apply Hds. exact Hin.
Qed.

(** ** Missing and negative memory values *)

Lemma py_or_0_reported (p : ProcessInfo) :
  py_or (usedGpuMemory p) 0 = reported_memory p.
Proof.
  unfold py_or, reported_memory.
  destruct (usedGpuMemory p) as [m|]; [|reflexivity].
  destruct (m =? 0) eqn:E; [|reflexivity].
  apply Z.eqb_eq in E. congruence.
Qed.

Lemma mem_values_reported (procs : list ProcessInfo) :
  mem_values procs = map reported_memory procs.
Proof.
  unfold mem_values. apply map_ext. exact py_or_0_reported.
Qed.

Lemma running_processes_map (f : ProcessInfo -> ProcessInfo) (drv : Nvml) :
  running_processes (map_processes f drv) = map f (running_processes drv).
Proof. unfold running_processes. simpl. symmetry. apply map_app. Qed.

Lemma display_name_map (f : ProcessInfo -> ProcessInfo) (drv : Nvml)
    (p : ProcessInfo) :
  pid (f p) = pid p ->
  display_name (map_processes f drv) (f p) = display_name drv p.
Proof. intros Hp. unfold display_name. simpl. rewrite Hp. reflexivity. Qed.

Section SameMemory.

Context {F : Type} `{PyFloat F}.
Variable f : ProcessInfo -> ProcessInfo.
Variable procs : list ProcessInfo.
Hypothesis f_pid : forall p, pid (f p) = pid p.
Hypothesis f_mem :
  forall p, In p procs -> reported_memory (f p) = reported_memory p.

Lemma mem_values_same : mem_values (map f procs) = mem_values procs.
Proof.
  rewrite !mem_values_reported, map_map.
  apply map_ext_in. exact f_mem.
Qed.

Lemma total_mem_same : total_mem (map f procs) = total_mem procs.
Proof. unfold total_mem. rewrite mem_values_same. reflexivity. Qed.

Lemma sample_loop_same (target : option string) (interval power_w : F)
    (total : Z) (drv : Nvml) (energy : ledger F) :
  sample_loop target interval power_w total (map_processes f drv)
    (map f procs) energy
  = sample_loop target interval power_w total drv procs energy.
Proof.
  revert energy f_mem.
  induction procs as [|p l IH]; intros energy Hmem.
  - reflexivity.
  - cbn [map sample_loop].
    rewrite (display_name_map f drv p (f_pid p)).
    rewrite !py_or_0_reported, (Hmem p (or_introl eq_refl)).
    destruct (skipped target (display_name drv p)).
    + apply IH. intros q Hq. apply Hmem. right. exact Hq.
    + destruct (int_truediv (reported_memory p) total) as [frac|e]; cbn [bind].
      * apply IH. intros q Hq. apply Hmem. right. exact Hq.
      * reflexivity.
Qed.

End SameMemory.

(** A change of the process entries that keeps pids and the memory each
    entry counts for is invisible to [sample]. *)
Lemma sample_same {F : Type} `{PyFloat F} (f : ProcessInfo -> ProcessInfo)
    (self : GPUPowerMonitor F) (drv : Nvml) (now : F) :
  (forall p, pid (f p) = pid p) ->
  (forall p, In p (running_processes drv) ->
             reported_memory (f p) = reported_memory p) ->
  sample self (map_processes f drv) now = sample self drv now.
Proof.
  intros Hpid Hmem. unfold sample.
  rewrite running_processes_map.
  rewrite (total_mem_same f _ Hmem).
  cbn [map_processes nvmlDeviceGetPowerUsage
       nvmlDeviceGetUtilizationRates_gpu].
  destruct (fdiv (of_int (nvmlDeviceGetPowerUsage drv)) (of_int 1000))
    as [power_w|e]; cbn [bind]; [|reflexivity].
  rewrite (sample_loop_same f _ Hpid Hmem).
  reflexivity.
Qed.

Lemma tick_deltas_nonneg (self : GPUPowerMonitor Q) (drv : Nvml) :
  unsigned_reading drv = true ->
  (0 <= sample_interval self)%Q ->
  Forall (fun kx => 0 <= snd kx)%Q (tick_deltas self drv).
Proof.
  intros Hu Hi. unfold unsigned_reading in Hu.
  apply andb_prop in Hu. destruct Hu as [Hp Hm].
  apply Z.leb_le in Hp.
  apply attribute_nonneg; try assumption.
  - apply power_watts_nonneg. exact Hp.
  - apply total_mem_pos. exact Hm.
Qed.

Lemma clamp_unsigned (procs : list ProcessInfo) (p : ProcessInfo) :
  unsigned_memory procs = true -> In p procs ->
  reported_memory (clamp_proc p) = reported_memory p.
Proof.
  unfold unsigned_memory. rewrite forallb_forall. intros Hu Hin.
  specialize (Hu p Hin). unfold reported_memory, clamp_proc. simpl.
  destruct (usedGpuMemory p) as [m|]; [|reflexivity].
  apply Z.leb_le in Hu. lia.
Qed.

Lemma fill_missing_reported (p : ProcessInfo) :
  reported_memory (fill_missing_proc p) = reported_memory p.
Proof.
  unfold reported_memory, fill_missing_proc. simpl.
  destruct (usedGpuMemory p); reflexivity.
Qed.

Lemma unsigned_max_reported (procs : list ProcessInfo) :
  unsigned_memory procs = true ->
  map (fun p => Z.max 0 (reported_memory p)) procs
  = map reported_memory procs.
Proof.
  intros Hu. apply map_ext_in. intros p Hin.
  pose proof (unsigned_memory_In procs p Hu Hin) as H0.
  rewrite py_or_0_reported in H0. lia.
Qed.

(** C3: on every reading the driver can give (used memory is an unsigned
    byte count, or missing), a missing or negative used-memory value counts
    as 0 in the denominator and in the process's own fraction: [sample]
    cannot tell the reading from the one with these values replaced by [0].
    For missing values this holds of any reading at all.  The denominator is
    [sum or 1] over the values so clamped, hence never below their sum; and
    with power and interval non-negative no delta is negative and no ledger
    entry decreases. *)
Theorem missing_or_negative_memory_counts_as_zero (self : GPUPowerMonitor Q)
    (drv : Nvml) (now : Q) :
  sample self (map_processes fill_missing_proc drv) now = sample self drv now
  /\ total_mem (running_processes drv)
     = py_or (Some (sum (map reported_memory (running_processes drv)))) 1
  /\ (unsigned_memory (running_processes drv) = true ->
      sample self (map_processes clamp_proc drv) now = sample self drv now
      /\ total_mem (running_processes drv)
         = py_or (Some (sum (map (fun p => Z.max 0 (reported_memory p))
                                 (running_processes drv)))) 1
      /\ sum (map (fun p => Z.max 0 (reported_memory p))
                  (running_processes drv))
         <= total_mem (running_processes drv)
      /\ (0 <= nvmlDeviceGetPowerUsage drv ->
          (0 <= sample_interval self)%Q ->
          Forall (fun kx => 0 <= snd kx)%Q (tick_deltas self drv)
          /\ exists self',
               sample self drv now = Ok self'
               /\ process_energy self'
                  = merge (process_energy self) (tick_deltas self drv)
               /\ forall k, (energy_of (process_energy self) k
                             <= energy_of (process_energy self') k)%Q)).
Proof.
  assert (Htot : total_mem (running_processes drv)
                 = py_or (Some (sum (map reported_memory
                                         (running_processes drv)))) 1).
  { unfold total_mem. rewrite mem_values_reported. reflexivity. }
  split; [|split; [exact Htot|]].
  - apply sample_same; [reflexivity|].
    intros p _. apply fill_missing_reported.
  - intros Hm. rewrite (unsigned_max_reported _ Hm).
    split; [|split; [exact Htot|split]].
    + apply sample_same; [reflexivity|].
      intros p Hin. apply (clamp_unsigned _ p Hm Hin).
    + pose proof (sum_mem_values_nonneg _ Hm) as Hs.
      rewrite <- mem_values_reported.
      unfold total_mem, py_or.
      destruct (sum (mem_values (running_processes drv)) =? 0) eqn:E.
      * apply Z.eqb_eq in E. lia.
      * lia.
    + intros Hp Hi.
      assert (Hu : unsigned_reading drv = true).
      { unfold unsigned_reading. rewrite Hm.
        apply Z.leb_le in Hp. rewrite Hp. reflexivity. }
      split; [apply tick_deltas_nonneg; assumption|].
      destruct (sample_tick_deltas self drv now)
        as [self' [Hs [_ [_ [_ He]]]]].
      exists self'. split; [exact Hs|]. split; [exact He|].
      intros k. rewrite He, energy_of_merge.
      pose proof (share_of_nonneg _ k (tick_deltas_nonneg self drv Hu Hi)).
      lra.
Qed.

Lemma missing_or_negative_memory_counts_as_zero_witness :
  sample (fresh None) (map_processes clamp_proc windows_reading) 0%Q
  = sample (fresh None) windows_reading 0%Q
  /\ total_mem (running_processes windows_reading) = 200
  /\ Forall (fun kx => 0 <= snd kx)%Q (tick_deltas (fresh None) windows_reading)
  /\ exists self',
       sample (fresh None) windows_reading 0%Q = Ok self'
       /\ forall k, (energy_of (process_energy (fresh None)) k
                     <= energy_of (process_energy self') k)%Q.
Proof.
  destruct (missing_or_negative_memory_counts_as_zero (fresh None)
              windows_reading 0%Q) as [_ [_ Hunsigned]].
  destruct (Hunsigned eq_refl) as [Hclamp [Htot [_ Hsigns]]].
  destruct Hsigns as [Hnn [self' [Hok [_ Hle]]]].
  - cbn. lia.
  - vm_compute. discriminate.
  - split; [exact Hclamp|]. split; [exact Htot|]. split; [exact Hnn|].
    exists self'. split; [exact Hok | exact Hle].
Defined.

(** ** A denominator of zero *)

Lemma Qsum_zero (l : list Q) : Forall (fun x => x == 0)%Q l -> (Qsum l == 0)%Q.
Proof.
  induction 1 as [|x l Hx _ IH]; simpl.
  - reflexivity.
  - rewrite Hx, IH. ring.
Qed.

Lemma energy_delta_zero (interval power_w : Q) (total : Z) (p : ProcessInfo) :
  reported_memory p = 0 ->
  (energy_delta interval power_w total p == 0)%Q.
Proof.
  intros Hm. unfold energy_delta.
  rewrite py_or_0_reported, Hm.
  unfold Qdiv. setoid_replace (inject_Z 0) with 0%Q by reflexivity.
  ring.
Qed.

(** A name all of whose processes hold no memory is given nothing. *)
Lemma share_of_zero_memory (target : option string) (interval power_w : Q)
    (total : Z) (drv : Nvml) (procs : list ProcessInfo) (k : string) :
  (forall p, In p procs -> display_name drv p = k -> reported_memory p = 0) ->
  (share_of (attribute target interval power_w total drv procs) k == 0)%Q.
Proof.
  intros Hz. unfold share_of. apply Qsum_zero.
  apply Forall_forall. intros x Hin.
  apply in_map_iff in Hin. destruct Hin as [[k' x'] [Hx Hin]].
  cbn [snd] in Hx. subst x'.
  apply filter_In in Hin. destruct Hin as [Hin Hk].
  cbn [fst] in Hk. apply String.eqb_eq in Hk. subst k'.
  unfold attribute in Hin.
  apply in_map_iff in Hin. destruct Hin as [p [Hp Hin]].
  apply filter_In in Hin. destruct Hin as [Hin _].
  inversion Hp; subst.
  apply energy_delta_zero. apply Hz; [exact Hin | reflexivity].
Qed.

(** C4: when the used memory of all processes sums to 0, the denominator
    is 1, [sample] returns without a division error, every process's share
    of memory is a well-defined quotient, and a name whose processes all
    hold no memory keeps the energy it had. *)
Theorem zero_total_memory_is_safe (self : GPUPowerMonitor Q) (drv : Nvml)
    (now : Q) :
  sum (mem_values (running_processes drv)) = 0 ->
  total_mem (running_processes drv) = 1
  /\ exists self',
       sample self drv now = Ok self'
       /\ process_energy self'
          = merge (process_energy self) (tick_deltas self drv)
       /\ (forall p, In p (running_processes drv) ->
             int_truediv (py_or (usedGpuMemory p) 0)
                         (total_mem (running_processes drv))
             = Ok (inject_Z (reported_memory p) / 1)%Q)
       /\ (forall p, In p (running_processes drv) ->
             reported_memory p = 0 ->
             (energy_delta (sample_interval self) (power_watts drv)
                (total_mem (running_processes drv)) p == 0)%Q)
       /\ (forall k,
             (forall p, In p (running_processes drv) ->
                display_name drv p = k -> reported_memory p = 0) ->
             (energy_of (process_energy self') k
              == energy_of (process_energy self) k)%Q).
Proof.
  intros Hs.
  assert (Ht : total_mem (running_processes drv) = 1).
  { unfold total_mem. rewrite Hs. reflexivity. }
  split; [exact Ht|].
  destruct (sample_tick_deltas self drv now) as [self' [Hok [_ [_ [_ He]]]]].
  exists self'. split; [exact Hok|]. split; [exact He|].
  split; [|split].
  - intros p _. rewrite Ht, py_or_0_reported.
    rewrite int_truediv_Q by discriminate. reflexivity.
  - intros p _ Hm. apply energy_delta_zero. exact Hm.
  - intros k Hk. rewrite He, energy_of_merge.
    unfold tick_deltas. rewrite share_of_zero_memory by exact Hk. ring.
Qed.

Lemma zero_total_memory_is_safe_witness :
  total_mem (running_processes zero_reading) = 1
  /\ exists self',
       sample (fresh None) zero_reading 0%Q = Ok self'
       /\ process_energy self'
          = merge (process_energy (fresh None))
                  (tick_deltas (fresh None) zero_reading)
       /\ (forall p, In p (running_processes zero_reading) ->
             int_truediv (py_or (usedGpuMemory p) 0)
                         (total_mem (running_processes zero_reading))
             = Ok (inject_Z (reported_memory p) / 1)%Q)
       /\ (forall p, In p (running_processes zero_reading) ->
             reported_memory p = 0 ->
             (energy_delta (sample_interval (fresh None))
                (power_watts zero_reading)
                (total_mem (running_processes zero_reading)) p == 0)%Q)
       /\ (forall k,
             (forall p, In p (running_processes zero_reading) ->
                display_name zero_reading p = k -> reported_memory p = 0) ->
             (energy_of (process_energy self') k
              == energy_of (process_energy (fresh None)) k)%Q).
Proof.
  apply (zero_total_memory_is_safe (fresh None) zero_reading 0%Q).
  reflexivity.
Defined.

(** ** Filtering *)

Lemma py_in_empty (s : string) : py_in "" s = true.
Proof. destruct s; reflexivity. Qed.

Lemma skipped_false_iff (f name : string) :
  skipped (Some f) name = false <-> py_in (lower f) (lower name) = true.
Proof.
  unfold skipped. destruct f as [|c f].
  - simpl. rewrite py_in_empty. tauto.
  - cbn [target_set andb]. rewrite negb_false_iff. tauto.
Qed.

Lemma filter_map_swap {A B : Type} (g : A -> B) (q : B -> bool) (l : list A) :
  filter q (map g l) = map g (filter (fun a => q (g a)) l).
Proof.
  induction l as [|a l IH]; simpl.
  - reflexivity.
  - destruct (q (g a)); simpl; rewrite IH; reflexivity.
Qed.

(** The filtered mapping is the unfiltered one with the names that do not
    match taken out: same deltas, hence the same denominator. *)
Lemma attribute_filter (target : option string) (interval power_w : Q)
    (total : Z) (drv : Nvml) (procs : list ProcessInfo) :
  attribute target interval power_w total drv procs
  = filter (fun kx => negb (skipped target (fst kx)))
           (attribute None interval power_w total drv procs).
Proof.
  unfold attribute.
  rewrite (included_no_target None drv procs eq_refl).
  rewrite filter_map_swap. reflexivity.
Qed.

Lemma share_of_filter (q : string -> bool) (ds : list (string * Q))
    (k : string) :
  (share_of (filter (fun kx => q (fst kx)) ds) k
   == if q k then share_of ds k else 0)%Q.
Proof.
  unfold share_of.
  induction ds as [|[k0 x] ds IH]; simpl.
  - destruct (q k); reflexivity.
  - destruct (String.eqb k0 k) eqn:E.
    + apply String.eqb_eq in E. subst k0.
      destruct (q k) eqn:Eq; simpl.
      * rewrite String.eqb_refl. simpl. rewrite IH. reflexivity.
      * exact IH.
    + destruct (q k0); simpl; [rewrite E|]; exact IH.
Qed.

(** C5: a filter never gives a name more than the unfiltered run does; a
    process whose display name does not contain the filter, case ignored,
    leaves no trace in the ledger; and the denominator is that of the
    unfiltered run, so that a matching name receives exactly what it
    receives without filter. *)
Theorem filter_narrows (self : GPUPowerMonitor Q) (drv : Nvml) (now : Q)
    (f : string) :
  unsigned_reading drv = true ->
  (0 <= sample_interval self)%Q ->
  exists a b,
    sample (with_target self (Some f)) drv now = Ok a
    /\ sample (with_target self None) drv now = Ok b
    /\ tick_deltas (with_target self (Some f)) drv
       = filter (fun kx => py_in (lower f) (lower (fst kx)))
                (tick_deltas (with_target self None) drv)
    /\ (forall k, (energy_of (process_energy a) k
                   <= energy_of (process_energy b) k)%Q)
    /\ (forall p, In p (running_processes drv) ->
          py_in (lower f) (lower (display_name drv p)) = false ->
          ~ In (display_name drv p)
               (map fst (tick_deltas (with_target self (Some f)) drv))
          /\ lookup (process_energy a) (display_name drv p)
             = lookup (process_energy self) (display_name drv p))
    /\ (forall k, py_in (lower f) (lower k) = true ->
          (energy_of (process_energy a) k
           == energy_of (process_energy b) k)%Q).
Proof.
  intros Hu Hi.
  destruct (sample_tick_deltas (with_target self (Some f)) drv now)
    as [a [Ha [_ [_ [_ Hea]]]]].
  destruct (sample_tick_deltas (with_target self None) drv now)
    as [b [Hb [_ [_ [_ Heb]]]]].
  cbn [with_target process_energy] in Hea, Heb.
  assert (Hsk : forall k, negb (skipped (Some f) k) = py_in (lower f) (lower k)).
  { intros k. destruct (py_in (lower f) (lower k)) eqn:E.
    - apply negb_true_iff, skipped_false_iff. exact E.
    - apply negb_false_iff.
      destruct (skipped (Some f) k) eqn:E'; [reflexivity|].
      apply skipped_false_iff in E'. congruence. }
  assert (Hf : tick_deltas (with_target self (Some f)) drv
               = filter (fun kx => py_in (lower f) (lower (fst kx)))
                        (tick_deltas (with_target self None) drv)).
  { unfold tick_deltas. cbn [with_target target_process sample_interval].
    rewrite (attribute_filter (Some f)). apply filter_ext.
    intros kx. apply Hsk. }
  assert (Hnn : Forall (fun kx => 0 <= snd kx)%Q
                       (tick_deltas (with_target self None) drv)).
  { apply tick_deltas_nonneg; assumption. }
  exists a, b. split; [exact Ha|]. split; [exact Hb|]. split; [exact Hf|].
  split; [|split].
  - intros k. rewrite Hea, Heb, !energy_of_merge, Hf.
    rewrite (share_of_filter (fun k => py_in (lower f) (lower k))).
    pose proof (share_of_nonneg _ k Hnn).
    destruct (py_in (lower f) (lower k)); lra.
  - intros p _ Hno.
    assert (Hout : ~ In (display_name drv p)
                        (map fst (tick_deltas (with_target self (Some f)) drv))).
    { rewrite Hf. intros Hin.
      apply in_map_iff in Hin. destruct Hin as [[k x] [Hk Hin]].
      cbn [fst] in Hk. subst k.
      apply filter_In in Hin. destruct Hin as [_ Hm]. cbn [fst] in Hm.
      congruence. }
    split; [exact Hout|].
    rewrite Hea. apply lookup_merge_other. exact Hout.
  - intros k Hk. rewrite Hea, Heb, !energy_of_merge, Hf.
    rewrite (share_of_filter (fun k => py_in (lower f) (lower k))).
    rewrite Hk. reflexivity.
Qed.

Lemma filter_narrows_witness :
  exists a b,
    sample (with_target (fresh None) (Some "a")) (scenario 1000000) 0%Q = Ok a
    /\ sample (with_target (fresh None) None) (scenario 1000000) 0%Q = Ok b
    /\ (forall k, (energy_of (process_energy a) k
                   <= energy_of (process_energy b) k)%Q)
    /\ lookup (process_energy a) "B" = None.
Proof.
  destruct (filter_narrows (fresh None) (scenario 1000000) 0%Q "a")
    as [a [b [Ha [Hb [_ [Hle [Hout _]]]]]]].
  - reflexivity.
  - vm_compute. discriminate.
  - exists a, b. repeat split; try assumption.
    apply (Hout {| pid := 2; usedGpuMemory := Some 200000000 |}).
    + right. left. reflexivity.
    + reflexivity.
Defined.

(** ** Substrings *)

Lemma prefix_app (s t : string) :
  prefix s t = true <-> exists b, t = (s ++ b)%string.
Proof.
  revert t. induction s as [|c s IH]; intros t.
  - split; [intros _; exists t; reflexivity | intros _; destruct t; reflexivity].
  - destruct t as [|d t]; simpl.
    + split; [discriminate | intros [b Hb]; discriminate].
    + destruct (ascii_dec c d) as [E|E].
      * subst d. rewrite IH. split; intros [b Hb]; exists b; congruence.
      * split; [discriminate | intros [b Hb]; congruence].
Qed.

(** [py_in] is the substring test. *)
Lemma py_in_spec (s t : string) :
  py_in s t = true <-> exists a b, t = (a ++ s ++ b)%string.
Proof.
  induction t as [|d t IH].
  - cbn [py_in]. destruct (prefix s "") eqn:E.
    + apply prefix_app in E. destruct E as [b Hb].
      split; [intros _; exists "", b; exact Hb | intros _; reflexivity].
    + split; [discriminate|]. intros [a [b Hab]].
      destruct a; [|discriminate]. simpl in Hab.
      assert (P : prefix s "" = true) by (apply prefix_app; exists b; exact Hab).
      congruence.
  - cbn [py_in]. destruct (prefix s (String d t)) eqn:E.
    + apply prefix_app in E. destruct E as [b Hb].
      split; [intros _; exists "", b; exact Hb | intros _; reflexivity].
    + rewrite IH. split.
      * intros [a [b Hab]]. exists (String d a), b. simpl. congruence.
      * intros [a [b Hab]]. destruct a as [|c a].
        -- simpl in Hab.
           assert (P : prefix s (String d t) = true)
             by (apply prefix_app; exists b; exact Hab).
           congruence.
        -- simpl in Hab. inversion Hab. exists a, b. reflexivity.
Qed.

(** ** Names that cannot be read *)

Lemma display_name_fallback (drv : Nvml) (p : ProcessInfo) :
  display_name (with_fallback_names drv) p = display_name drv p.
Proof.
  unfold display_name. simpl.
  destruct (nvmlSystemGetProcessName drv (pid p)); reflexivity.
Qed.

Lemma sample_loop_names {F : Type} `{PyFloat F} (target : option string)
    (interval power_w : F) (total : Z) (drv drv' : Nvml)
    (procs : list ProcessInfo) (energy : ledger F) :
  (forall p, display_name drv' p = display_name drv p) ->
  sample_loop target interval power_w total drv' procs energy
  = sample_loop target interval power_w total drv procs energy.
Proof.
  intros Hn. revert energy.
  induction procs as [|p procs IH]; intros energy.
  - reflexivity.
  - cbn [sample_loop]. rewrite Hn.
    destruct (skipped target (display_name drv p)); [apply IH|].
    destruct (int_truediv (py_or (usedGpuMemory p) 0) total); cbn [bind].
    + apply IH.
    + reflexivity.
Qed.

(** A process that [sample] labels itself is handled as one that the driver
    names that way. *)
Lemma sample_fallback_names {F : Type} `{PyFloat F}
    (self : GPUPowerMonitor F) (drv : Nvml) (now : F) :
  sample self (with_fallback_names drv) now = sample self drv now.
Proof.
  unfold sample.
  change (running_processes (with_fallback_names drv))
    with (running_processes drv).
  cbn [with_fallback_names nvmlDeviceGetPowerUsage
       nvmlDeviceGetUtilizationRates_gpu].
  destruct (fdiv (of_int (nvmlDeviceGetPowerUsage drv)) (of_int 1000))
    as [power_w|e]; cbn [bind]; [|reflexivity].
  rewrite (sample_loop_names _ _ _ _ drv (with_fallback_names drv))
    by apply display_name_fallback.
  reflexivity.
Qed.

Lemma In_attribute (target : option string) (interval power_w : Q)
    (total : Z) (drv : Nvml) (procs : list ProcessInfo) (p : ProcessInfo) :
  In p procs ->
  skipped target (display_name drv p) = false ->
  In (display_name drv p, energy_delta interval power_w total p)
     (attribute target interval power_w total drv procs).
Proof.
  intros Hin Hsk. unfold attribute, included.
  apply in_map_iff. exists p. split; [reflexivity|].
  apply filter_In. split; [exact Hin|]. rewrite Hsk. reflexivity.
Qed.

(** C6: a process whose name cannot be read does not stop the tick and
    raises nothing.  It is booked under [PID_<pid>], exactly as if the driver
    had given that name: unless the filter skips that label, the tick's
    deltas hold its memory-proportional delta and the ledger has the key;
    and without filter the tick still books the whole reading. *)
Theorem fallback_naming (self : GPUPowerMonitor Q) (drv : Nvml) (now : Q)
    (p : ProcessInfo) :
  In p (running_processes drv) ->
  nvmlSystemGetProcessName drv (pid p) = None ->
  display_name drv p = ("PID_" ++ str (pid p))%string
  /\ sample self (with_fallback_names drv) now = sample self drv now
  /\ exists self',
       sample self drv now = Ok self'
       /\ process_energy self'
          = merge (process_energy self) (tick_deltas self drv)
       /\ (skipped (target_process self) ("PID_" ++ str (pid p)) = false ->
           In (("PID_" ++ str (pid p))%string,
               (power_watts drv
                * (inject_Z (py_or (usedGpuMemory p) 0)
                   / inject_Z (total_mem (running_processes drv)))
                * sample_interval self)%Q)
              (tick_deltas self drv)
           /\ In ("PID_" ++ str (pid p))%string (keys (process_energy self'))
           /\ (energy_of (process_energy self') ("PID_" ++ str (pid p))
               == energy_of (process_energy self) ("PID_" ++ str (pid p))
                  + share_of (tick_deltas self drv) ("PID_" ++ str (pid p)))%Q)
       /\ (target_set (target_process self) = false ->
           sum (mem_values (running_processes drv)) <> 0 ->
           (ledger_total (process_energy self')
            == ledger_total (process_energy self)
               + power_watts drv * sample_interval self)%Q).
Proof.
  intros Hin Hnone.
  assert (Hname : display_name drv p = ("PID_" ++ str (pid p))%string).
  { unfold display_name. rewrite Hnone. reflexivity. }
  split; [exact Hname|]. split; [apply sample_fallback_names|].
  destruct (sample_tick_deltas self drv now) as [self' [Hok [_ [_ [_ He]]]]].
  exists self'. split; [exact Hok|]. split; [exact He|]. split.
  - intros Hsk. rewrite <- Hname in *.
    assert (Hd : In (display_name drv p,
                     energy_delta (sample_interval self) (power_watts drv)
                       (total_mem (running_processes drv)) p)
                    (tick_deltas self drv)).
    { apply In_attribute; assumption. }
    split; [exact Hd|]. split.
    + rewrite He. apply keys_merge_In. right.
      apply in_map_iff. eexists. split; [|exact Hd]. reflexivity.
    + rewrite He. apply energy_of_merge.
  - intros Ht Hs.
    destruct (sample_books_all self drv now Ht Hs) as [self'' [Hok' Htot]].
    rewrite Hok in Hok'. inversion Hok'. subst self''. exact Htot.
Qed.

Lemma fallback_naming_witness :
  display_name windows_reading {| pid := 3; usedGpuMemory := None |} = "PID_3"
  /\ exists self',
       sample (fresh None) windows_reading 0%Q = Ok self'
       /\ In "PID_3" (keys (process_energy self'))
       /\ (ledger_total (process_energy self')
           == ledger_total (process_energy (fresh None))
              + power_watts windows_reading * sample_interval (fresh None))%Q.
Proof.
  destruct (fallback_naming (fresh None) windows_reading 0%Q
              {| pid := 3; usedGpuMemory := None |})
    as [Hname [_ [self' [Hok [_ [Hbook Htot]]]]]].
  - left. reflexivity.
  - reflexivity.
  - split; [exact Hname|]. exists self'. split; [exact Hok|]. split.
    + apply Hbook. reflexivity.
    + apply Htot; [reflexivity | vm_compute; discriminate].
Defined.

(** ** Startup *)

Lemma is_process_running_loop_true (t : string) (names : Z -> option string)
    (procs : list ProcessInfo) :
  is_process_running_loop t names procs = true
  <-> exists p name, In p procs /\ names (pid p) = Some name
                     /\ py_in (lower t) (lower name) = true.
Proof.
  induction procs as [|p procs IH]; simpl.
  - split; [discriminate | intros [p [name [[] _]]]].
  - destruct (names (pid p)) as [name|] eqn:En.
    + destruct (py_in (lower t) (lower name)) eqn:Em.
      * split; [|reflexivity]. intros _. exists p, name. tauto.
      * rewrite IH. split.
        -- intros [q [n [Hin Hq]]]. exists q, n. tauto.
        -- intros [q [n [[Hin|Hin] [Hn Hm]]]].
           ++ subst q. congruence.
           ++ exists q, n. tauto.
    + rewrite IH. split.
      * intros [q [n [Hin Hq]]]. exists q, n. tauto.
      * intros [q [n [[Hin|Hin] [Hn Hm]]]].
        -- subst q. congruence.
        -- exists q, n. tauto.
Qed.

(** The constructor either stops the script or leaves a fresh monitor. *)
Lemma init_Q (target : option string) (drv : Nvml) :
  init target drv
  = match target with
    | Some t =>
        if target_set target && negb (is_process_running t drv)
        then Raise (SystemExit 1)
        else Ok (fresh target)
    | None => Ok (fresh target)
    end.
Proof.
  unfold init. cbn [fdiv Q_PyFloat of_int].
  rewrite Qeq_bool_inject_Z. cbn [Z.eqb bind].
  destruct target as [t|]; [|reflexivity].
  destruct (target_set (Some t)); [|reflexivity].
  destruct (is_process_running t drv); reflexivity.
Qed.

(** C7: with a filter supplied (a non-empty string) that no running
    process's readable name contains, case ignored, the constructor exits
    with status 1; the script stops there, whatever ticks would have come:
    no monitor, hence no sample and no ledger entry, results. *)
Theorem startup_validation (t : string) (drv0 : Nvml)
    (ticks : list (Nvml * Q)) (dur : Q) :
  t <> "" ->
  (forall p name,
     In p (running_processes drv0) ->
     nvmlSystemGetProcessName drv0 (pid p) = Some name ->
     py_in (lower t) (lower name) = false) ->
  init (F := Q) (Some t) drv0 = Raise (SystemExit 1)
  /\ main (Some t) drv0 ticks dur = Raise (SystemExit 1).
Proof.
  intros Ht Hno.
  assert (Hrun : is_process_running t drv0 = false).
  { destruct (is_process_running t drv0) eqn:E; [|reflexivity].
    apply is_process_running_loop_true in E.
    destruct E as [p [name [Hin [Hn Hm]]]].
    rewrite (Hno p name Hin Hn) in Hm. discriminate. }
  assert (Hinit : init (F := Q) (Some t) drv0 = Raise (SystemExit 1)).
  { rewrite init_Q, Hrun. destruct t; [contradiction | reflexivity]. }
  split; [exact Hinit|].
  unfold main. rewrite Hinit. reflexivity.
Qed.

Lemma startup_validation_witness :
  init (F := Q) (Some "Cyberpunk2077.exe") (scenario 1000000)
  = Raise (SystemExit 1)
  /\ main (Some "Cyberpunk2077.exe") (scenario 1000000)
          [(scenario 1000000, 0%Q)] 1%Q
     = Raise (SystemExit 1).
Proof.
  apply startup_validation.
  - discriminate.
  - intros p name [Hp|[Hp|[]]] Hn; subst p; vm_compute in Hn;
      inversion Hn; reflexivity.
Defined.

(** ** The report *)

Lemma report_lines_Q (total : Q) (energy : ledger Q) :
  exists lines,
    report_lines total energy = Ok lines
    /\ Forall2 (line_of total) energy lines.
Proof.
  induction energy as [|[name e_j] energy [lines [Hl Hf]]].
  - exists []. split; [reflexivity | constructor].
  - cbn [report_lines fdiv truthy Q_PyFloat of_int].
    rewrite Qeq_bool_inject_Z. cbn [Z.eqb bind].
    destruct (Qeq_bool total 0) eqn:E; cbn [negb bind]; rewrite Hl; cbn [bind].
    + eexists. split; [reflexivity|].
      constructor; [|exact Hf].
      apply Qeq_bool_iff in E.
      unfold line_of. cbn [fst snd].
      split; [reflexivity|]. split; [reflexivity|].
      split; [intros Hn; contradiction | intros _; reflexivity].
    + eexists. split; [reflexivity|].
      constructor; [|exact Hf].
      apply Qeq_bool_neq in E.
      unfold line_of. cbn [fst snd].
      split; [reflexivity|]. split; [reflexivity|].
      split; [intros _; reflexivity | intros Hz; contradiction].
Qed.

(** [report] always returns: its total is the measured energy and every
    ledger entry gets its line. *)
Lemma report_Q (self : GPUPowerMonitor Q) (dur : Q) :
  exists r,
    report self dur = Ok r
    /\ duration r = dur
    /\ (total_energy_j r == measured_energy self)%Q
    /\ (total_energy_kwh r == total_energy_j r / 3600000)%Q
    /\ Forall2 (line_of (total_energy_j r)) (process_energy self)
               (per_process r).
Proof.
  unfold report.
  set (total := fsum (map (fun s => fmul (snd (fst s)) (sample_interval self))
                          (samples self))).
  cbn [fdiv Q_PyFloat of_int].
  rewrite Qeq_bool_inject_Z. cbn [Z.eqb bind].
  destruct (report_lines_Q total (process_energy self)) as [lines [Hl Hf]].
  rewrite Hl. cbn [bind].
  eexists. split; [reflexivity|].
  cbn [duration total_energy_j total_energy_kwh per_process].
  split; [reflexivity|]. split; [apply fsum_Qsum|].
  split; [reflexivity | exact Hf].
Qed.

(** C8: [report] returns for every monitor, with no division error.  Its
    total is the measured energy; every ledger entry gets a line whose
    percentage is [energy / total * 100] when the total is not zero and [0]
    when it is.  With no sample at all the total is 0 and every percentage
    is 0. *)
Theorem report_never_divides_by_zero (self : GPUPowerMonitor Q) (dur : Q) :
  exists r,
    report self dur = Ok r
    /\ duration r = dur
    /\ (total_energy_j r == measured_energy self)%Q
    /\ (total_energy_kwh r == total_energy_j r / 3600000)%Q
    /\ Forall2 (fun entry line =>
                  fst (fst line) = fst entry
                  /\ (snd (fst line) == snd entry / 3600000)%Q
                  /\ (~ (total_energy_j r == 0)%Q ->
                      (snd line == snd entry / total_energy_j r * 100)%Q)
                  /\ ((total_energy_j r == 0)%Q -> (snd line == 0)%Q))
               (process_energy self) (per_process r)
    /\ (samples self = [] ->
        (total_energy_j r == 0)%Q
        /\ Forall (fun line => snd line == 0)%Q (per_process r)).
Proof.
  destruct (report_Q self dur) as [r [Hok [Hdur [Htot [Hkwh Hf]]]]].
  exists r. split; [exact Hok|]. split; [exact Hdur|]. split; [exact Htot|].
  split; [exact Hkwh|]. split; [exact Hf|].
  intros Hs.
  assert (Hz : (total_energy_j r == 0)%Q).
  { rewrite Htot. unfold measured_energy. rewrite Hs. reflexivity. }
  split; [exact Hz|].
  induction Hf as [|entry line energy lines Hline _ IH].
  - constructor.
  - constructor; [|exact IH].
    destruct Hline as [_ [_ [_ H0]]]. apply H0. exact Hz.
Qed.

Lemma report_never_divides_by_zero_witness :
  exists r,
    report (fresh None) 0%Q = Ok r
    /\ (total_energy_j r == 0)%Q
    /\ per_process r = [].
Proof.
  destruct (report_never_divides_by_zero (fresh None) 0%Q)
    as [r [Hok [_ [_ [_ [Hlines Hzero]]]]]].
  exists r. split; [exact Hok|]. split.
  - apply Hzero. reflexivity.
  - inversion Hlines. reflexivity.
Defined.

(** ** The ledger never outruns the measurement *)

Lemma Qsum_filter_le (q : string * Q -> bool) (ds : list (string * Q)) :
  Forall (fun kx => 0 <= snd kx)%Q ds ->
  (Qsum (map snd (filter q ds)) <= Qsum (map snd ds))%Q.
Proof.
  induction 1 as [|kx ds Hx _ IH]; simpl.
  - apply Qle_refl.
  - destruct (q kx); simpl; lra.
Qed.

Lemma memory_share_le_1 (procs : list ProcessInfo) :
  unsigned_memory procs = true ->
  (0 <= inject_Z (sum (mem_values procs)) / inject_Z (total_mem procs) <= 1)%Q.
Proof.
  intros Hu.
  pose proof (sum_mem_values_nonneg procs Hu) as Hs.
  pose proof (total_mem_pos procs Hu) as Ht.
  assert (Hle : sum (mem_values procs) <= total_mem procs).
  { unfold total_mem, py_or in *.
    destruct (sum (mem_values procs) =? 0) eqn:E; [|lia].
    apply Z.eqb_eq in E. lia. }
  assert (Hq : (0 < inject_Z (total_mem procs))%Q).
  { unfold Qlt. simpl. lia. }
  split.
  - apply Qle_shift_div_l; [exact Hq|].
    rewrite Qmult_0_l. apply inject_Z_nonneg. exact Hs.
  - apply Qle_shift_div_r; [exact Hq|].
    rewrite Qmult_1_l. rewrite <- Zle_Qle. exact Hle.
Qed.

(** One tick books at most what it measures. *)
Lemma tick_deltas_le (self : GPUPowerMonitor Q) (drv : Nvml) :
  unsigned_reading drv = true ->
  (0 <= sample_interval self)%Q ->
  (Qsum (map snd (tick_deltas self drv))
   <= power_watts drv * sample_interval self)%Q.
Proof.
  intros Hu Hi.
  pose proof Hu as Hu'. unfold unsigned_reading in Hu'.
  apply andb_prop in Hu'. destruct Hu' as [Hp Hm]. apply Z.leb_le in Hp.
  pose proof (power_watts_nonneg drv Hp) as Hpw.
  unfold tick_deltas. rewrite attribute_filter.
  eapply Qle_trans.
  - apply Qsum_filter_le.
    apply attribute_nonneg; try assumption. apply total_mem_pos. exact Hm.
  - unfold attribute. rewrite (included_no_target None _ _ eq_refl).
    rewrite Qsum_energy_delta by apply total_mem_nonzero.
    destruct (memory_share_le_1 _ Hm) as [H0 H1].
    set (share := (inject_Z (sum (mem_values (running_processes drv)))
                   / inject_Z (total_mem (running_processes drv)))%Q) in *.
    assert (Hprod : (power_watts drv * share <= power_watts drv * 1)%Q).
    { rewrite !(Qmult_comm (power_watts drv)).
      apply Qmult_le_compat_r; assumption. }
    rewrite Qmult_1_r in Hprod.
    apply Qmult_le_compat_r; assumption.
Qed.

Lemma measured_energy_sample (self self' : GPUPowerMonitor Q) (drv : Nvml)
    (now : Q) :
  sample self drv now = Ok self' ->
  (measured_energy self'
   == measured_energy self + power_watts drv * sample_interval self)%Q.
Proof.
  intros Hok. rewrite sample_Q in Hok. inversion Hok. subst self'. clear Hok.
  unfold measured_energy. cbn [samples sample_interval].
  rewrite map_app, Qsum_app. simpl. ring.
Qed.

Lemma busy_sum_pos (drv : Nvml) :
  unsigned_reading drv = true -> busy drv = true ->
  sum (mem_values (running_processes drv)) <> 0.
Proof.
  intros Hu Hb. unfold unsigned_reading in Hu.
  apply andb_prop in Hu. destruct Hu as [_ Hm].
  unfold busy in Hb.
  assert (Hne : running_processes drv <> []).
  { destruct (running_processes drv); [discriminate | discriminate]. }
  assert (Hnz : nonzero_memory (running_processes drv) = true).
  { destruct (running_processes drv); [discriminate | exact Hb]. }
  pose proof (sum_mem_values_pos _ Hne Hm Hnz). lia.
Qed.

(** Over any number of ticks the ledger grows by at most what the samples
    gain, and by exactly that much when nothing is filtered and every tick
    is busy. *)
Lemma run_loop_Q (ticks : list (Nvml * Q)) (self : GPUPowerMonitor Q) :
  Forall (fun t => unsigned_reading (fst t) = true) ticks ->
  (0 <= sample_interval self)%Q ->
  exists self',
    run_loop self ticks = Ok self'
    /\ target_process self' = target_process self
    /\ sample_interval self' = sample_interval self
    /\ List.length (samples self')
       = (List.length (samples self) + List.length ticks)%nat
    /\ (ledger_total (process_energy self') + measured_energy self
        <= ledger_total (process_energy self) + measured_energy self')%Q
    /\ (target_set (target_process self) = false ->
        Forall (fun t => busy (fst t) = true) ticks ->
        (ledger_total (process_energy self') + measured_energy self
         == ledger_total (process_energy self) + measured_energy self')%Q).
Proof.
  intros Hu. revert self.
  induction Hu as [|[drv now] ticks Hd _ IH]; intros self Hi.
  - exists self. split; [reflexivity|]. split; [reflexivity|].
    split; [reflexivity|]. split; [simpl; lia|].
    split; [apply Qle_refl | intros _ _; reflexivity].
  - cbn [fst] in Hd. cbn [run_loop].
    destruct (sample_tick_deltas self drv now)
      as [mid [Hok [Ht [Hint [Hsm He]]]]].
    rewrite Hok. cbn [bind].
    assert (Hi' : (0 <= sample_interval mid)%Q) by (rewrite Hint; exact Hi).
    destruct (IH mid Hi') as [self' [Hrun [Ht' [Hint' [Hlen [Hle Heq]]]]]].
    exists self'. split; [exact Hrun|].
    split; [congruence|]. split; [congruence|].
    split; [rewrite Hlen, Hsm, length_app; simpl; lia|].
    pose proof (measured_energy_sample self mid drv now Hok) as Hmeas.
    assert (Hled : (ledger_total (process_energy mid)
                    == ledger_total (process_energy self)
                       + Qsum (map snd (tick_deltas self drv)))%Q).
    { rewrite He. apply ledger_total_merge. }
    split.
    + pose proof (tick_deltas_le self drv Hd Hi). lra.
    + intros Hnone Hbusy. inversion Hbusy as [|t l Hb Hrest]; subst.
      cbn [fst] in Hb.
      rewrite Ht in Heq. specialize (Heq Hnone Hrest).
      destruct (sample_books_all self drv now Hnone (busy_sum_pos drv Hd Hb))
        as [mid' [Hok' Hall]].
      rewrite Hok in Hok'. inversion Hok'. subst mid'.
      lra.
Qed.

Lemma Forall_firstn {A : Type} (P : A -> Prop) (l : list A) (k : nat) :
  Forall P l -> Forall P (firstn k l).
Proof.
  intros Hl. revert k.
  induction Hl as [|x l Hx _ IH]; intros [|k]; simpl; constructor.
  - exact Hx.
  - apply IH.
Qed.

(** C9, as amended: after every tick of a run on unsigned readings, the
    sum of the per-process energies is at most the total that [report]
    derives from the samples, filter or not; the two are equal when no filter
    is active and every tick so far saw at least one process, each with
    non-zero memory. *)
Theorem ledger_within_measured_energy (target : option string) (drv0 : Nvml)
    (monitor : GPUPowerMonitor Q) (ticks : list (Nvml * Q)) (k : nat)
    (dur : Q) :
  init target drv0 = Ok monitor ->
  Forall (fun t => unsigned_reading (fst t) = true) ticks ->
  exists self' r,
    run_loop monitor (firstn k ticks) = Ok self'
    /\ report self' dur = Ok r
    /\ List.length (samples self') = List.length (firstn k ticks)
    /\ (ledger_total (process_energy self') <= total_energy_j r)%Q
    /\ (target_set target = false ->
        Forall (fun t => busy (fst t) = true) (firstn k ticks) ->
        (ledger_total (process_energy self') == total_energy_j r)%Q).
Proof.
  intros Hinit Hu.
  assert (Hm : monitor = fresh target).
  { rewrite init_Q in Hinit. destruct target as [t|].
    - destruct (target_set (Some t) && negb (is_process_running t drv0));
        [discriminate | congruence].
    - congruence. }
  subst monitor.
  assert (Hu' : Forall (fun t => unsigned_reading (fst t) = true)
                       (firstn k ticks)).
  { apply Forall_firstn. exact Hu. }
  assert (Hi : (0 <= sample_interval (fresh target))%Q)
    by (vm_compute; discriminate).
  destruct (run_loop_Q (firstn k ticks) (fresh target) Hu' Hi)
    as [self' [Hrun [Ht [_ [Hlen [Hle Heq]]]]]].
  destruct (report_Q self' dur) as [r [Hrep [_ [Htot _]]]].
  exists self', r. split; [exact Hrun|]. split; [exact Hrep|].
  split; [exact Hlen|].
  assert (H0 : (ledger_total (process_energy (fresh target)) == 0)%Q)
    by reflexivity.
  assert (H1 : (measured_energy (fresh target) == 0)%Q) by reflexivity.
  split.
  - rewrite Htot. lra.
  - intros Hnone Hbusy. rewrite Htot.
    specialize (Heq Hnone Hbusy). lra.
Qed.

Lemma ledger_within_measured_energy_witness :
  exists self' r,
    run_loop (fresh (Some "a"))
      (firstn 2 [(scenario 1000000, 0%Q); (idle, 1%Q); (zero_reading, 2%Q)])
    = Ok self'
    /\ report self' 3%Q = Ok r
    /\ (ledger_total (process_energy self') <= total_energy_j r)%Q.
Proof.
  destruct (ledger_within_measured_energy (Some "a") (scenario 1000000)
              (fresh (Some "a"))
              [(scenario 1000000, 0%Q); (idle, 1%Q); (zero_reading, 2%Q)]
              2 3%Q)
    as [self' [r [Hrun [Hrep [_ [Hle _]]]]]].
  - vm_compute. reflexivity.
  - repeat constructor.
  - exists self', r. auto.
Defined.

(** C9 as first stated fails after an idle tick: no filter, no process at
    all and hence none with zero memory, yet the ledger holds nothing while
    the report derives one joule from the sample. *)
Lemma totals_differ_after_idle_tick :
  exists monitor self' r,
    init None idle = Ok monitor
    /\ target_set (target_process monitor) = false
    /\ nonzero_memory (running_processes idle) = true
    /\ run_loop monitor [(idle, 0%Q)] = Ok self'
    /\ report self' 0%Q = Ok r
    /\ (ledger_total (process_energy self') == 0)%Q
    /\ (total_energy_j r == 1)%Q
    /\ ~ (ledger_total (process_energy self') == total_energy_j r)%Q.
Proof.
  eexists. eexists. eexists.
  split; [vm_compute; reflexivity|].
  split; [reflexivity|]. split; [reflexivity|].
  split; [vm_compute; reflexivity|].
  split; [vm_compute; reflexivity|].
  split; [vm_compute; reflexivity|].
  split; [vm_compute; reflexivity|].
  vm_compute. discriminate.
Qed.

(** ** Processes that hold no memory *)

Lemma lookup_In {F : Type} (d : ledger F) (k : string) (v : F) :
  lookup d k = Some v -> In (k, v) d.
Proof.
  induction d as [|[k0 v0] d IH]; simpl.
  - discriminate.
  - destruct (String.eqb k0 k) eqn:E.
    + apply String.eqb_eq in E. intros Hv. left. congruence.
    + intros Hv. right. apply IH. exact Hv.
Qed.

Lemma Forall2_In_left {A B : Type} (R : A -> B -> Prop) (l : list A)
    (l' : list B) (x : A) :
  Forall2 R l l' -> In x l -> exists y, In y l' /\ R x y.
Proof.
  induction 1 as [|a b l l' Hab _ IH]; intros Hin.
  - destruct Hin.
  - destruct Hin as [Hx|Hx].
    + subst a. exists b. split; [left; reflexivity | exact Hab].
    + destruct (IH Hx) as [y [Hy Hr]]. exists y. split; [right|]; assumption.
Qed.

Lemma merge_keys_unchanged (ds : list (string * Q)) (e : ledger Q) :
  keys (merge e ds) = keys e ->
  forall k, In k (map fst ds) -> In k (keys e).
Proof.
  intros Hk k Hin. rewrite <- Hk. apply keys_merge_In. right. exact Hin.
Qed.

(** C10, as amended: a process with zero used memory that the filter does
    not skip has a key in the ledger after the tick that sees it, the delta
    booked for it being 0, and has a line in the report; the line shows zero
    energy when the name had no energy before and all processes of that name
    hold no memory.  An empty process list leaves the ledger as it was; and
    a tick leaves the key set as it was only if every process is skipped by
    the filter or has its key already. *)
Theorem zero_memory_process_is_listed (self : GPUPowerMonitor Q) (drv : Nvml)
    (now dur : Q) :
  exists self' r,
    sample self drv now = Ok self'
    /\ report self' dur = Ok r
    /\ (forall p,
          In p (running_processes drv) ->
          reported_memory p = 0 ->
          skipped (target_process self) (display_name drv p) = false ->
          exists delta v line,
            In (display_name drv p, delta) (tick_deltas self drv)
            /\ (delta == 0)%Q
            /\ lookup (process_energy self') (display_name drv p) = Some v
            /\ In (display_name drv p) (keys (process_energy self'))
            /\ In line (per_process r)
            /\ fst (fst line) = display_name drv p
            /\ (snd (fst line) == v / 3600000)%Q
            /\ ((energy_of (process_energy self) (display_name drv p) == 0)%Q ->
                (forall q, In q (running_processes drv) ->
                   display_name drv q = display_name drv p ->
                   reported_memory q = 0) ->
                (v == 0)%Q /\ (snd (fst line) == 0)%Q))
    /\ (running_processes drv = [] ->
        process_energy self' = process_energy self)
    /\ (keys (process_energy self') = keys (process_energy self) ->
        forall p, In p (running_processes drv) ->
          skipped (target_process self) (display_name drv p) = true
          \/ In (display_name drv p) (keys (process_energy self))).
Proof.
  destruct (sample_tick_deltas self drv now) as [self' [Hok [_ [_ [_ He]]]]].
  destruct (report_Q self' dur) as [r [Hrep [_ [_ [_ Hlines]]]]].
  exists self', r. split; [exact Hok|]. split; [exact Hrep|].
  split; [|split].
  - intros p Hin Hzero Hsk.
    pose proof (In_attribute (target_process self) (sample_interval self)
                  (power_watts drv) (total_mem (running_processes drv))
                  drv _ p Hin Hsk) as Hd.
    fold (tick_deltas self drv) in Hd.
    assert (Hkey : In (display_name drv p) (keys (process_energy self'))).
    { rewrite He. apply keys_merge_In. right.
      apply in_map_iff. eexists. split; [|exact Hd]. reflexivity. }
    destruct (lookup (process_energy self') (display_name drv p)) as [v|] eqn:El.
    2:{ apply lookup_None_keys in El. contradiction. }
    destruct (Forall2_In_left _ _ _ _ Hlines (lookup_In _ _ _ El))
      as [line [Hline [Hn [Hkwh _]]]].
    cbn [fst snd] in Hn, Hkwh.
    eexists. exists v, line.
    split; [exact Hd|]. split; [apply energy_delta_zero; exact Hzero|].
    split; [reflexivity|]. split; [exact Hkey|]. split; [exact Hline|].
    split; [exact Hn|]. split; [exact Hkwh|].
    intros Hbefore Hall.
    assert (Hv : (v == 0)%Q).
    { assert (Hev : energy_of (process_energy self') (display_name drv p) = v)
        by (unfold energy_of; rewrite El; reflexivity).
      rewrite <- Hev, He, energy_of_merge, Hbefore.
      unfold tick_deltas. rewrite share_of_zero_memory by exact Hall. ring. }
    split; [exact Hv|]. rewrite Hkwh, Hv. reflexivity.
  - intros Hnil. rewrite He. unfold tick_deltas. rewrite Hnil. reflexivity.
  - intros Hk p Hin.
    destruct (skipped (target_process self) (display_name drv p)) eqn:Hsk;
      [left; reflexivity | right].
    rewrite He in Hk.
    apply (merge_keys_unchanged _ _ Hk).
    apply in_map_iff. eexists. split; [|apply In_attribute; eassumption].
    reflexivity.
Qed.

Lemma zero_memory_process_is_listed_witness :
  exists self' r,
    sample (fresh None) zero_reading 0%Q = Ok self'
    /\ report self' 1%Q = Ok r
    /\ exists line,
         In line (per_process r)
         /\ fst (fst line) = "PID_3"
         /\ (snd (fst line) == 0)%Q.
Proof.
  destruct (zero_memory_process_is_listed (fresh None) zero_reading 0%Q 1%Q)
    as [self' [r [Hok [Hrep [Hzero _]]]]].
  exists self', r. split; [exact Hok|]. split; [exact Hrep|].
  destruct (Hzero {| pid := 3; usedGpuMemory := None |})
    as [delta [v [line [_ [_ [_ [_ [Hline [Hn [_ Hz]]]]]]]]]].
  - right. left. reflexivity.
  - reflexivity.
  - reflexivity.
  - exists line. split; [exact Hline|]. split; [exact Hn|].
    apply Hz.
    + reflexivity.
    + intros q [Hq|[Hq|[]]] Hname; subst q; [discriminate | reflexivity].
Defined.

(** C10 as first stated fails on the last clause: the second of two ticks
    that see the same processes leaves the key set as it was although the
    process list is not empty. *)
Lemma key_set_unchanged_on_second_tick :
  exists m1 m2,
    sample (fresh None) zero_reading 0%Q = Ok m1
    /\ sample m1 zero_reading 1%Q = Ok m2
    /\ keys (process_energy m1) = ["A"; "PID_3"]
    /\ keys (process_energy m2) = keys (process_energy m1)
    /\ running_processes zero_reading <> [].
Proof.
  eexists. eexists.
  split; [vm_compute; reflexivity|].
  split; [vm_compute; reflexivity|].
  split; [vm_compute; reflexivity|].
  split; [vm_compute; reflexivity|].
  discriminate.
Qed.

(** ** The script in binary64 *)

(** Two ticks of the scenario, run on floats from the constructor to the
    report: 2 J measured, 1.5 J for A (75 percent) and 0.5 J for B. *)
Lemma float_run_example :
  exists m r,
    main None (scenario 1000000)
      [(scenario 1000000, 0%float); (scenario 1000000, 1%float)] 2%float
    = Ok (m, r)
    /\ process_energy m = [("A", 1.5%float); ("B", 0.5%float)]
    /\ total_energy_j r = 2%float
    /\ map (fun line => (fst (fst line), snd line)) (per_process r)
       = [("A", 75%float); ("B", 25%float)].
Proof.
  eexists. eexists. split; [vm_compute; reflexivity|].
  repeat split; vm_compute; reflexivity.
Qed.

(** Stopped before the first tick, the script still reports: nothing
    measured, nothing booked, no division attempted. *)
Lemma float_report_without_samples :
  exists m r,
    main None idle [] 0%float = Ok (m, r)
    /\ samples m = []
    /\ total_energy_j r = 0%float
    /\ total_energy_kwh r = 0%float
    /\ per_process r = [].
Proof.
  eexists. eexists. split; [vm_compute; reflexivity|].
  repeat split; vm_compute; reflexivity.
Qed.

(** * Further properties of the monitor *)

(** ** The keys of the ledger *)

Section AnyFloat.

Context {F : Type} `{PyFloat F}.

Lemma NoDup_keys_iadd (d : ledger F) (k : string) (x : F) :
  NoDup (keys d) -> NoDup (keys (iadd d k x)).
Proof.
  intros Hd. rewrite keys_iadd.
  destruct (in_dec string_dec k (keys d)) as [Hin|Hn]; [exact Hd|].
  apply NoDup_app; [exact Hd | repeat constructor; intros [] |].
  intros a Ha [Hk|[]]. subst a. contradiction.
Qed.

Lemma keys_iadd_prefix (d : ledger F) (k : string) (x : F) :
  exists new, keys (iadd d k x) = keys d ++ new.
Proof.
  rewrite keys_iadd.
  destruct (in_dec string_dec k (keys d)).
  - exists []. symmetry. apply app_nil_r.
  - exists [k]. reflexivity.
Qed.

(** What the loop of [sample] does to the keys, whatever it adds to the
    values. *)
Lemma sample_loop_keys (target : option string) (interval power_w : F)
    (total : Z) (drv : Nvml) (procs : list ProcessInfo)
    (energy energy' : ledger F) :
  sample_loop target interval power_w total drv procs energy = Ok energy' ->
  (NoDup (keys energy) -> NoDup (keys energy'))
  /\ (exists new, keys energy' = keys energy ++ new)
  /\ (forall k, In k (keys energy') <->
                In k (keys energy)
                \/ In k (map (display_name drv) (included target drv procs))).
Proof.
  revert energy. induction procs as [|p procs IH]; intros energy Hok.
  - cbn in Hok. inversion Hok. subst energy'.
    split; [tauto|]. split; [exists []; symmetry; apply app_nil_r|].
    intros k. simpl. tauto.
  - cbn [sample_loop] in Hok. unfold included. cbn [filter].
    destruct (skipped target (display_name drv p)) eqn:Hsk; cbn [negb].
    + apply IH. exact Hok.
    + destruct (int_truediv (py_or (usedGpuMemory p) 0) total) as [frac|e];
        cbn [bind] in Hok; [|discriminate].
      destruct (IH _ Hok) as [Hnd [[new Hnew] Hin]].
      split; [|split].
      * intros Hd. apply Hnd. apply NoDup_keys_iadd. exact Hd.
      * destruct (keys_iadd_prefix energy (display_name drv p)
                    (fmul (fmul power_w frac) interval)) as [n1 Hn1].
        exists (n1 ++ new). rewrite Hnew, Hn1. symmetry. apply app_assoc.
      * intros k. rewrite Hin, keys_iadd_In. cbn [map In].
        fold (included target drv procs). intuition congruence.
Qed.

Lemma sample_fields (self self' : GPUPowerMonitor F) (drv : Nvml) (now : F) :
  sample self drv now = Ok self' ->
  target_process self' = target_process self
  /\ sample_interval self' = sample_interval self
  /\ exists power_w energy',
       fdiv (of_int (nvmlDeviceGetPowerUsage drv)) (of_int 1000) = Ok power_w
       /\ samples self'
          = samples self
            ++ [(now, power_w, nvmlDeviceGetUtilizationRates_gpu drv)]
       /\ sample_loop (target_process self) (sample_interval self) power_w
            (total_mem (running_processes drv)) drv (running_processes drv)
            (process_energy self) = Ok energy'
       /\ process_energy self' = energy'.
Proof.
  unfold sample. intros Hok.
  destruct (fdiv (of_int (nvmlDeviceGetPowerUsage drv)) (of_int 1000))
    as [power_w|e] eqn:Ep; cbn [bind] in Hok; [|discriminate].
  destruct (sample_loop (target_process self) (sample_interval self) power_w
              (total_mem (running_processes drv)) drv (running_processes drv)
              (process_energy self)) as [energy'|e] eqn:El;
    cbn [bind] in Hok; [|discriminate].
  inversion Hok. subst self'.
  cbn [target_process sample_interval samples process_energy].
  split; [reflexivity|]. split; [reflexivity|].
  exists power_w, energy'.
  split; [reflexivity|]. split; [reflexivity|]. split; [exact El | reflexivity].
Qed.

Lemma run_loop_keys (ticks : list (Nvml * F))
    (self self' : GPUPowerMonitor F) :
  run_loop self ticks = Ok self' ->
  NoDup (keys (process_energy self)) ->
  NoDup (keys (process_energy self'))
  /\ (exists new, keys (process_energy self')
                  = keys (process_energy self) ++ new)
  /\ (forall k, In k (keys (process_energy self')) ->
        In k (keys (process_energy self))
        \/ exists tick p,
             In tick ticks
             /\ In p (running_processes (fst tick))
             /\ display_name (fst tick) p = k
             /\ skipped (target_process self) k = false).
Proof.
  revert self. induction ticks as [|[drv now] ticks IH]; intros self Hrun Hd.
  - cbn in Hrun. inversion Hrun. subst self'.
    split; [exact Hd|]. split; [exists []; symmetry; apply app_nil_r|].
    intros k Hk. left. exact Hk.
  - cbn [run_loop] in Hrun.
    destruct (sample self drv now) as [mid|e] eqn:Hs;
      cbn [bind] in Hrun; [|discriminate].
    destruct (sample_fields _ _ _ _ Hs)
      as [Ht [_ [power_w [energy' [_ [_ [Hloop He]]]]]]].
    rewrite <- He in Hloop.
    destruct (sample_loop_keys _ _ _ _ _ _ _ _ Hloop) as [Hnd [[n1 Hn1] Hin]].
    destruct (IH mid Hrun (Hnd Hd)) as [Hnd' [[n2 Hn2] Hin']].
    split; [exact Hnd'|]. split.
    + exists (n1 ++ n2). rewrite Hn2, Hn1. symmetry. apply app_assoc.
    + intros k Hk. destruct (Hin' k Hk) as [Hmid|[tick [p [Hti Hp]]]].
      * apply Hin in Hmid. destruct Hmid as [Hold|Hnew]; [left; exact Hold|].
        right. apply in_map_iff in Hnew. destruct Hnew as [p [Hname Hp]].
        unfold included in Hp. apply filter_In in Hp. destruct Hp as [Hp Hsk].
        exists (drv, now), p. cbn [fst].
        split; [left; reflexivity|]. split; [exact Hp|].
        split; [exact Hname|]. rewrite Hname in Hsk.
        apply negb_true_iff. exact Hsk.
      * right. exists tick, p. rewrite Ht in Hp.
        split; [right; exact Hti | exact Hp].
Qed.

Lemma init_fields (target : option string) (drv : Nvml)
    (monitor : GPUPowerMonitor F) :
  init target drv = Ok monitor ->
  target_process monitor = target
  /\ samples monitor = []
  /\ process_energy monitor = []
  /\ fdiv (of_int SAMPLE_INTERVAL_MS) (of_int 1000)
     = Ok (sample_interval monitor).
Proof.
  unfold init. intros Hok.
  destruct (fdiv (of_int SAMPLE_INTERVAL_MS) (of_int 1000)) as [interval|e];
    cbn [bind] in Hok; [|discriminate].
  assert (Hm : monitor = {| target_process := target;
                            sample_interval := interval;
                            samples := [];
                            process_energy := [] |}).
  { destruct target as [t|]; [|congruence].
    destruct (target_set (Some t)); [|congruence].
    destruct (negb (is_process_running t drv)); [discriminate | congruence]. }
  subst monitor. repeat split; reflexivity.
Qed.

(** From the constructor on, whatever the ticks, the ledger has one entry
    per name, and every entry it had stays where it was: new names are
    appended in the order they are first seen. *)
Theorem ledger_keys_over_run (target : option string) (drv0 : Nvml)
    (monitor mid self' : GPUPowerMonitor F) (a b : list (Nvml * F)) :
  init target drv0 = Ok monitor ->
  run_loop monitor a = Ok mid ->
  run_loop mid b = Ok self' ->
  NoDup (keys (process_energy mid))
  /\ NoDup (keys (process_energy self'))
  /\ exists new, keys (process_energy self')
                 = keys (process_energy mid) ++ new.
Proof.
  intros Hinit Ha Hb.
  destruct (init_fields _ _ _ Hinit) as [_ [_ [He _]]].
  assert (H0 : NoDup (keys (process_energy monitor)))
    by (rewrite He; constructor).
  destruct (run_loop_keys _ _ _ Ha H0) as [Hmid _].
  destruct (run_loop_keys _ _ _ Hb Hmid) as [Hend [Hnew _]].
  split; [exact Hmid|]. split; [exact Hend | exact Hnew].
Qed.

(** With a filter set, the ledger of a run only ever holds names that
    contain the filter, case ignored. *)
Theorem ledger_holds_only_matching_names (t : string) (drv0 : Nvml)
    (monitor self' : GPUPowerMonitor F) (ticks : list (Nvml * F)) :
  init (Some t) drv0 = Ok monitor ->
  run_loop monitor ticks = Ok self' ->
  forall k, In k (keys (process_energy self')) ->
            skipped (Some t) k = false.
Proof.
  intros Hinit Hrun k Hk.
  destruct (init_fields _ _ _ Hinit) as [Ht [_ [He _]]].
  assert (H0 : NoDup (keys (process_energy monitor)))
    by (rewrite He; constructor).
  destruct (run_loop_keys _ _ _ Hrun H0) as [_ [_ Hin]].
  destruct (Hin k Hk) as [Hold|[tick [p [_ [_ [_ Hsk]]]]]].
  - rewrite He in Hold. destruct Hold.
  - rewrite Ht in Hsk. exact Hsk.
Qed.

Lemma report_lines_names (total : F) (energy : ledger F)
    (lines : list (string * F * F)) :
  report_lines total energy = Ok lines -> line_names lines = keys energy.
Proof.
  revert lines. induction energy as [|[name e_j] energy IH]; intros lines Hok.
  - cbn in Hok. inversion Hok. reflexivity.
  - cbn [report_lines] in Hok.
    destruct (fdiv e_j (of_int 3600000)) as [e_kwh|e];
      cbn [bind] in Hok; [|discriminate].
    destruct (if truthy total
              then q <- fdiv e_j total ;; Ok (fmul q (of_int 100))
              else Ok (of_int 0)) as [pct|e]; cbn [bind] in Hok; [|discriminate].
    destruct (report_lines total energy) as [rest|e];
      cbn [bind] in Hok; [|discriminate].
    inversion Hok. subst lines. cbn. f_equal. apply IH. reflexivity.
Qed.

(** A report has one line for each ledger entry, in the order of the
    ledger, and passes the duration through. *)
Theorem report_lists_every_key (self : GPUPowerMonitor F) (dur : F)
    (r : Report F) :
  report self dur = Ok r ->
  line_names (per_process r) = keys (process_energy self)
  /\ duration r = dur.
Proof.
  unfold report. intros Hok.
  destruct (fdiv _ (of_int 3600000)) as [kwh|e];
    cbn [bind] in Hok; [|discriminate].
  destruct (report_lines _ (process_energy self)) as [lines|e] eqn:El;
    cbn [bind] in Hok; [|discriminate].
  inversion Hok. subst r. cbn.
  split; [|reflexivity]. apply (report_lines_names _ _ _ El).
Qed.

End AnyFloat.

(** ** The state after a run *)

Lemma merge_app (e : ledger Q) (a b : list (string * Q)) :
  merge e (a ++ b) = merge (merge e a) b.
Proof. unfold merge. apply fold_left_app. Qed.

Lemma tick_deltas_same_settings (self mid : GPUPowerMonitor Q) (drv : Nvml) :
  target_process mid = target_process self ->
  sample_interval mid = sample_interval self ->
  tick_deltas mid drv = tick_deltas self drv.
Proof. intros Ht Hi. unfold tick_deltas. rewrite Ht, Hi. reflexivity. Qed.

Lemma run_loop_state (ticks : list (Nvml * Q)) (self : GPUPowerMonitor Q) :
  exists self',
    run_loop self ticks = Ok self'
    /\ target_process self' = target_process self
    /\ sample_interval self' = sample_interval self
    /\ samples self' = samples self ++ map record_of ticks
    /\ process_energy self'
       = merge (process_energy self)
               (List.concat (map (fun t => tick_deltas self (fst t)) ticks)).
Proof.
  revert self. induction ticks as [|[drv now] ticks IH]; intros self.
  - exists self. cbn [run_loop map List.concat]. rewrite app_nil_r.
    repeat split; reflexivity.
  - cbn [run_loop].
    destruct (sample_tick_deltas self drv now)
      as [mid [Hok [Ht [Hi [Hs He]]]]].
    rewrite Hok. cbn [bind].
    destruct (IH mid) as [self' [Hrun [Ht' [Hi' [Hs' He']]]]].
    exists self'. split; [exact Hrun|].
    split; [congruence|]. split; [congruence|]. split.
    + rewrite Hs', Hs, <- app_assoc. reflexivity.
    + rewrite He', He. cbn [map List.concat fst]. rewrite merge_app.
      f_equal. f_equal. apply map_ext. intros t.
      apply tick_deltas_same_settings; assumption.
Qed.

(** ** Energies only grow *)

(** On unsigned readings no ledger entry ever decreases, over any number
    of ticks, and no entry is ever removed. *)
Theorem energy_never_decreases (ticks : list (Nvml * Q))
    (self : GPUPowerMonitor Q) :
  Forall (fun t => unsigned_reading (fst t) = true) ticks ->
  (0 <= sample_interval self)%Q ->
  exists self',
    run_loop self ticks = Ok self'
    /\ (forall k, (energy_of (process_energy self) k
                   <= energy_of (process_energy self') k)%Q)
    /\ (forall k, In k (keys (process_energy self)) ->
                  In k (keys (process_energy self'))).
Proof.
  intros Hu. revert self.
  induction Hu as [|[drv now] ticks Hd _ IH]; intros self Hi.
  - exists self. split; [reflexivity|].
    split; [intros k; apply Qle_refl | tauto].
  - cbn [fst] in Hd. cbn [run_loop].
    destruct (sample_tick_deltas self drv now)
      as [mid [Hok [_ [Hint [_ He]]]]].
    rewrite Hok. cbn [bind].
    assert (Hi' : (0 <= sample_interval mid)%Q) by (rewrite Hint; exact Hi).
    destruct (IH mid Hi') as [self' [Hrun [Hle Hkeys]]].
    exists self'. split; [exact Hrun|]. split.
    + intros k. eapply Qle_trans; [|apply Hle].
      rewrite He, energy_of_merge.
      pose proof (share_of_nonneg _ k (tick_deltas_nonneg self drv Hd Hi)).
      lra.
    + intros k Hk. apply Hkeys. rewrite He. apply keys_merge_In.
      left. exact Hk.
Qed.

Lemma energy_never_decreases_witness :
  exists self',
    run_loop (fresh (Some "a")) [(scenario 1000000, 0%Q); (idle, 1%Q)]
    = Ok self'
    /\ (forall k, (energy_of (process_energy (fresh (Some "a"))) k
                   <= energy_of (process_energy self') k)%Q)
    /\ (forall k, In k (keys (process_energy (fresh (Some "a")))) ->
                  In k (keys (process_energy self'))).
Proof.
  apply energy_never_decreases.
  - repeat constructor.
  - vm_compute. discriminate.
Defined.

(** ** The measured total *)

Lemma measured_energy_records (self : GPUPowerMonitor Q)
    (ticks : list (Nvml * Q)) :
  (Qsum (map (fun s => snd (fst s) * sample_interval self)
             (map record_of ticks))
   == inject_Z (sum (power_readings ticks)) / 1000 * sample_interval self)%Q.
Proof.
  induction ticks as [|[drv now] ticks IH].
  - cbn. unfold sum. cbn. field.
  - cbn [map Qsum record_of fst snd power_readings].
    fold (power_readings ticks).
    rewrite IH, sum_cons, inject_Z_plus. unfold power_watts. field.
Qed.

Lemma main_Ok (target : option string) (drv0 : Nvml)
    (ticks : list (Nvml * Q)) (dur : Q) (m : GPUPowerMonitor Q)
    (r : Report Q) :
  main target drv0 ticks dur = Ok (m, r) ->
  init target drv0 = Ok (fresh target)
  /\ run_loop (fresh target) ticks = Ok m
  /\ report m dur = Ok r.
Proof.
  unfold main, run. intros Hok.
  assert (Hi : init target drv0 = Ok (fresh target)).
  { rewrite init_Q in *. destruct target as [t|]; [|reflexivity].
    destruct (target_set (Some t) && negb (is_process_running t drv0));
      [discriminate | reflexivity]. }
  rewrite Hi in Hok. cbn [bind] in Hok.
  destruct (run_loop (fresh target) ticks) as [m'|e] eqn:Hrun;
    cbn [bind] in Hok; [|discriminate].
  destruct (report m' dur) as [r'|e] eqn:Hrep;
    cbn [bind] in Hok; [|discriminate].
  inversion Hok. subst m' r'.
  split; [exact Hi|]. split; [reflexivity | exact Hrep].
Qed.

(** The total of the report depends on the power readings alone: it is
    their sum in milliwatts over 100000 (each reading held for the nominal
    0.01 s), whatever the processes, the filter, the utilisation and the
    clock were. *)
Theorem total_energy_from_power_readings (target : option string)
    (drv0 : Nvml) (ticks : list (Nvml * Q)) (dur : Q)
    (m : GPUPowerMonitor Q) (r : Report Q) :
  main target drv0 ticks dur = Ok (m, r) ->
  (total_energy_j r == inject_Z (sum (power_readings ticks)) / 100000)%Q
  /\ (total_energy_kwh r
      == inject_Z (sum (power_readings ticks)) / 360000000000)%Q.
Proof.
  intros Hok. destruct (main_Ok _ _ _ _ _ _ Hok) as [_ [Hrun Hrep]].
  destruct (run_loop_state ticks (fresh target))
    as [m' [Hrun' [_ [Hi [Hs _]]]]].
  rewrite Hrun in Hrun'. inversion Hrun'. subst m'.
  destruct (report_Q m dur) as [r' [Hrep' [_ [Htot [Hkwh _]]]]].
  rewrite Hrep in Hrep'. inversion Hrep'. subst r'.
  assert (Ht : (total_energy_j r
                == inject_Z (sum (power_readings ticks)) / 100000)%Q).
  { rewrite Htot. unfold measured_energy. rewrite Hs.
    change (samples (fresh target)) with (@nil (Q * Q * Z)). cbn [app].
    rewrite (measured_energy_records m ticks), Hi.
    unfold fresh, sample_interval, SAMPLE_INTERVAL_MS. field. }
  split; [exact Ht|]. rewrite Hkwh, Ht. field.
Qed.

Lemma total_energy_from_power_readings_witness :
  exists m r,
    main (Some "a") (scenario 1000000)
      [(scenario 1000000, 0%Q); (idle, 1%Q)] 2%Q = Ok (m, r)
    /\ (total_energy_j r == 2)%Q.
Proof.
  eexists. eexists. split; [vm_compute; reflexivity|].
  eapply Qeq_trans.
  - eapply (total_energy_from_power_readings (Some "a") (scenario 1000000)
              [(scenario 1000000, 0%Q); (idle, 1%Q)] 2%Q).
    vm_compute. reflexivity.
  - vm_compute. reflexivity.
Defined.

(** ** Percentages *)

Lemma nonneg_iadd (d : ledger Q) (k : string) (x : Q) :
  Forall (fun kv => 0 <= snd kv)%Q d -> (0 <= x)%Q ->
  Forall (fun kv => 0 <= snd kv)%Q (iadd d k x).
Proof.
  intros Hd Hx. induction Hd as [|[k0 v] d Hv Hd IH]; cbn [iadd].
  - constructor; [|constructor]. change (0 <= 0 + x)%Q. lra.
  - cbn [snd] in Hv. destruct (String.eqb k0 k).
    + constructor; [change (0 <= v + x)%Q; lra | exact Hd].
    + constructor; [exact Hv | exact IH].
Qed.

Lemma nonneg_merge (ds : list (string * Q)) (e : ledger Q) :
  Forall (fun kv => 0 <= snd kv)%Q e ->
  Forall (fun kx => 0 <= snd kx)%Q ds ->
  Forall (fun kv => 0 <= snd kv)%Q (merge e ds).
Proof.
  intros He Hds. revert e He. unfold merge.
  induction Hds as [|[k x] ds Hx _ IH]; intros e He; cbn [fold_left].
  - exact He.
  - apply IH. apply nonneg_iadd; assumption.
Qed.

Lemma nonneg_run_deltas (self : GPUPowerMonitor Q) (ticks : list (Nvml * Q)) :
  Forall (fun t => unsigned_reading (fst t) = true) ticks ->
  (0 <= sample_interval self)%Q ->
  Forall (fun kx => 0 <= snd kx)%Q
         (List.concat (map (fun t => tick_deltas self (fst t)) ticks)).
Proof.
  intros Hu Hi. induction Hu as [|t ticks Ht _ IH]; cbn [map List.concat].
  - constructor.
  - apply Forall_app. split; [|exact IH].
    apply tick_deltas_nonneg; assumption.
Qed.

Lemma pct_sum (total : Q) (e : ledger Q) (lines : list (string * Q * Q)) :
  Forall2 (line_of total) e lines ->
  ~ (total == 0)%Q ->
  (Qsum (map snd lines) == ledger_total e / total * 100)%Q.
Proof.
  intros Hf Hn. unfold ledger_total.
  induction Hf as [|entry line e lines [_ [_ [Hp _]]] _ IH]; cbn [map Qsum].
  - field. exact Hn.
  - rewrite IH, (Hp Hn). field. exact Hn.
Qed.

(** The percentages of a report on unsigned readings are never negative
    and add up to at most 100; they add up to exactly 100 when no filter is
    set, every tick was busy and some energy was measured. *)
Theorem percentages_bounded (target : option string) (drv0 : Nvml)
    (ticks : list (Nvml * Q)) (dur : Q) (m : GPUPowerMonitor Q)
    (r : Report Q) :
  main target drv0 ticks dur = Ok (m, r) ->
  Forall (fun t => unsigned_reading (fst t) = true) ticks ->
  Forall (fun line => 0 <= snd line)%Q (per_process r)
  /\ (Qsum (map snd (per_process r)) <= 100)%Q
  /\ (target_set target = false ->
      Forall (fun t => busy (fst t) = true) ticks ->
      ~ (total_energy_j r == 0)%Q ->
      (Qsum (map snd (per_process r)) == 100)%Q).
Proof.
  intros Hok Hu. destruct (main_Ok _ _ _ _ _ _ Hok) as [_ [Hrun Hrep]].
  assert (Hi : (0 <= sample_interval (fresh target))%Q)
    by (vm_compute; discriminate).
  destruct (run_loop_Q ticks (fresh target) Hu Hi)
    as [m1 [Hrun1 [_ [_ [_ [Hle Heq]]]]]].
  rewrite Hrun in Hrun1. inversion Hrun1. subst m1.
  destruct (run_loop_state ticks (fresh target)) as [m2 [Hrun2 [_ [_ [_ He]]]]].
  rewrite Hrun in Hrun2. inversion Hrun2. subst m2.
  destruct (report_Q m dur) as [r' [Hrep' [_ [Htot [_ Hlines]]]]].
  rewrite Hrep in Hrep'. inversion Hrep'. subst r'.
  assert (Hnn : Forall (fun kv => 0 <= snd kv)%Q (process_energy m)).
  { rewrite He. apply nonneg_merge; [constructor|].
    apply nonneg_run_deltas; assumption. }
  assert (Hl0 : (0 <= ledger_total (process_energy m))%Q).
  { unfold ledger_total. apply Qsum_nonneg.
    apply Forall_forall. intros x Hx. apply in_map_iff in Hx.
    destruct Hx as [kv [Hkv Hin]]. subst x.
    rewrite Forall_forall in Hnn. apply Hnn. exact Hin. }
  assert (H0 : (ledger_total (process_energy (fresh target)) == 0)%Q)
    by reflexivity.
  assert (H1 : (measured_energy (fresh target) == 0)%Q) by reflexivity.
  assert (Hlt : (ledger_total (process_energy m) <= total_energy_j r)%Q)
    by (rewrite Htot; lra).
  destruct (Qeq_dec (total_energy_j r) 0) as [Hz|Hnz].
  - assert (Hall : Forall (fun line => snd line == 0)%Q (per_process r)).
    { clear - Hlines Hz.
      induction Hlines as [|entry line e lines [_ [_ [_ Hp]]] _ IH];
        constructor; [apply Hp; exact Hz | exact IH]. }
    split; [|split].
    + eapply Forall_impl; [|exact Hall]. cbn. intros line Hline.
      rewrite Hline. apply Qle_refl.
    + rewrite Qsum_zero; [discriminate|].
      apply Forall_forall. intros x Hx. apply in_map_iff in Hx.
      destruct Hx as [line [Hline Hin]]. subst x.
      rewrite Forall_forall in Hall. apply Hall. exact Hin.
    + intros _ _ Hn. contradiction.
  - assert (Hpos : (0 < total_energy_j r)%Q).
    { destruct (Qlt_le_dec 0 (total_energy_j r)) as [Hp|Hp]; [exact Hp|].
      exfalso. apply Hnz. lra. }
    split; [|split].
    + clear - Hlines Hnn Hnz Hpos.
      induction Hlines as [|entry line e lines [_ [_ [Hp _]]] _ IH].
      * constructor.
      * inversion Hnn as [|x l Hx Hrest]; subst.
        constructor; [|apply IH; exact Hrest].
        cbn beta. rewrite (Hp Hnz).
        apply Qmult_le_0_compat; [|discriminate].
        apply Qle_shift_div_l; [exact Hpos|]. lra.
    + rewrite (pct_sum _ _ _ Hlines Hnz).
      setoid_replace 100%Q with (1 * 100)%Q at 2 by ring.
      apply Qmult_le_compat_r; [|discriminate].
      apply Qle_shift_div_r; [exact Hpos|]. lra.
    + intros Hnone Hbusy _.
      specialize (Heq Hnone Hbusy).
      rewrite (pct_sum _ _ _ Hlines Hnz).
      assert (Hsame : (ledger_total (process_energy m) == total_energy_j r)%Q)
        by (rewrite Htot; lra).
      rewrite Hsame. field. exact Hnz.
Qed.

Lemma percentages_bounded_witness :
  exists m r,
    main None (scenario 1000000)
      [(scenario 1000000, 0%Q); (scenario 1048576, 1%Q)] 2%Q = Ok (m, r)
    /\ Forall (fun line => 0 <= snd line)%Q (per_process r)
    /\ (Qsum (map snd (per_process r)) == 100)%Q.
Proof.
  eexists. eexists. split; [vm_compute; reflexivity|].
  destruct (percentages_bounded None (scenario 1000000)
              [(scenario 1000000, 0%Q); (scenario 1048576, 1%Q)] 2%Q
              _ _ eq_refl) as [Hnn [_ Hall]].
  - repeat constructor.
  - split; [exact Hnn|]. apply Hall.
    + reflexivity.
    + repeat constructor.
    + vm_compute. discriminate.
Defined.

(** ** Divisions *)

(** No division of the script has a zero divisor, whatever values the
    driver reports (zero or negative power, zero, missing or negative
    memory) and however many ticks are made: neither the script as a whole
    nor a run and its report from any state of the monitor raise
    [ZeroDivisionError].  The memory fraction is divided by [sum or 1], the
    percentage is guarded by the truth value of the total, the other
    divisors are constants. *)
Theorem no_division_by_zero (target : option string) (drv0 : Nvml)
    (self : GPUPowerMonitor Q) (ticks : list (Nvml * Q)) (dur : Q) :
  main target drv0 ticks dur <> Raise ZeroDivisionError
  /\ run self ticks dur <> Raise ZeroDivisionError
  /\ forall drv now, sample self drv now <> Raise ZeroDivisionError.
Proof.
  assert (Hrun : forall monitor : GPUPowerMonitor Q,
            run monitor ticks dur <> Raise ZeroDivisionError).
  { intros monitor. unfold run.
    destruct (run_loop_state ticks monitor) as [self' [Hloop _]].
    rewrite Hloop. cbn [bind].
    destruct (report_Q self' dur) as [r [Hrep _]].
    rewrite Hrep. cbn [bind]. discriminate. }
  split; [|split].
  - unfold main. rewrite init_Q.
    destruct target as [t|]; [|apply Hrun].
    destruct (target_set (Some t) && negb (is_process_running t drv0));
      [discriminate | apply Hrun].
  - apply Hrun.
  - intros drv now. rewrite sample_Q. discriminate.
Qed.

(** The constructor lets the script start exactly when no filter is set
    ([None] or the empty string) or some running process has a readable
    name that contains the filter, case ignored; the monitor then has no
    sample, an empty ledger and the interval 10/1000.  Otherwise it exits
    with status 1. *)
Theorem constructor_outcome (target : option string) (drv : Nvml) :
  (init target drv = Ok (fresh target)
   \/ init (F := Q) target drv = Raise (SystemExit 1))
  /\ (init target drv = Ok (fresh target)
      <-> target = None \/ target = Some ""
          \/ exists t p name,
               target = Some t
               /\ In p (running_processes drv)
               /\ nvmlSystemGetProcessName drv (pid p) = Some name
               /\ py_in (lower t) (lower name) = true).
Proof.
  rewrite init_Q. destruct target as [t|].
  - destruct t as [|c t].
    + cbn [target_set andb]. split; [left; reflexivity|].
      split; [intros _; right; left; reflexivity | reflexivity].
    + cbn [target_set andb].
      destruct (is_process_running (String c t) drv) eqn:Hrun; cbn [negb].
      * split; [left; reflexivity|]. split; [|reflexivity].
        intros _. right. right.
        apply is_process_running_loop_true in Hrun.
        destruct Hrun as [p [name Hp]]. exists (String c t), p, name. tauto.
      * split; [right; reflexivity|]. split; [discriminate|].
        intros [Hn|[Hn|[t' [p [name [Ht Hp]]]]]]; try discriminate.
        inversion Ht. subst t'.
        assert (Htrue : is_process_running (String c t) drv = true).
        { apply is_process_running_loop_true. exists p, name. exact Hp. }
        congruence.
  - split; [left; reflexivity|]. split; [|reflexivity].
    intros _. left. reflexivity.
Qed.

(** ** The log *)

(** After a run the log holds the header and one row per tick, in the order
    of the ticks, each with the clock value, the power in watts (the
    reading over 1000) and the utilisation of its tick, whatever filter is
    set. *)
Theorem log_has_one_row_per_tick (target : option string) (drv0 : Nvml)
    (ticks : list (Nvml * Q)) (dur : Q) (m : GPUPowerMonitor Q)
    (r : Report Q) :
  main target drv0 ticks dur = Ok (m, r) ->
  save_csv m
  = Header ["timestamp"; "power_w"; "gpu_util"]
    :: map (fun t => Row (snd t)
                         (inject_Z (nvmlDeviceGetPowerUsage (fst t)) / 1000)%Q
                         (nvmlDeviceGetUtilizationRates_gpu (fst t)))
           ticks.
Proof.
  intros Hok. destruct (main_Ok _ _ _ _ _ _ Hok) as [_ [Hrun _]].
  destruct (run_loop_state ticks (fresh target)) as [m' [Hrun' [_ [_ [Hs _]]]]].
  rewrite Hrun in Hrun'. inversion Hrun'. subst m'.
  unfold save_csv. rewrite Hs.
  change (samples (fresh target)) with (@nil (Q * Q * Z)). cbn [app].
  rewrite map_map. reflexivity.
Qed.

Lemma log_has_one_row_per_tick_witness :
  exists m r,
    main (Some "a") (scenario 1000000)
      [(scenario 1000000, 5%Q); (idle, 6%Q)] 2%Q = Ok (m, r)
    /\ save_csv m
       = [ Header ["timestamp"; "power_w"; "gpu_util"];
           Row 5%Q (inject_Z 100000 / 1000)%Q 50;
           Row 6%Q (inject_Z 100000 / 1000)%Q 0 ].
Proof.
  eexists. eexists. split; [vm_compute; reflexivity|].
  apply (log_has_one_row_per_tick (Some "a") (scenario 1000000)
           [(scenario 1000000, 5%Q); (idle, 6%Q)] 2%Q _ _ eq_refl).
Defined.

(** ** Startup against sampling *)

Lemma py_in_refl (s : string) : py_in s s = true.
Proof.
  apply py_in_spec. exists "", "". cbn.
  induction s as [|c s IH]; cbn; [reflexivity | congruence].
Qed.

(** Startup and sampling disagree on processes whose name cannot be read:
    [sample] books such a process under [PID_<pid>] and a filter equal to
    that label keeps it, yet the constructor, which passes such processes
    over, refuses to start with that filter unless some readable name
    happens to contain it. *)
Theorem startup_passes_over_unnamed_processes (drv : Nvml) (p : ProcessInfo) :
  In p (running_processes drv) ->
  nvmlSystemGetProcessName drv (pid p) = None ->
  (forall q name,
     In q (running_processes drv) ->
     nvmlSystemGetProcessName drv (pid q) = Some name ->
     py_in (lower ("PID_" ++ str (pid p))) (lower name) = false) ->
  skipped (Some ("PID_" ++ str (pid p))%string) (display_name drv p) = false
  /\ init (F := Q) (Some ("PID_" ++ str (pid p))%string) drv
     = Raise (SystemExit 1).
Proof.
  intros Hin Hnone Hno. split.
  - unfold display_name. rewrite Hnone.
    apply skipped_false_iff. apply py_in_refl.
  - rewrite init_Q.
    assert (Hrun : is_process_running ("PID_" ++ str (pid p)) drv = false).
    { destruct (is_process_running ("PID_" ++ str (pid p)) drv) eqn:E;
        [|reflexivity].
      apply is_process_running_loop_true in E.
      destruct E as [q [name [Hq [Hn Hm]]]].
      rewrite (Hno q name Hq Hn) in Hm. discriminate. }
    rewrite Hrun. reflexivity.
Qed.

Lemma startup_passes_over_unnamed_processes_witness :
  skipped (Some "PID_3")
    (display_name windows_reading {| pid := 3; usedGpuMemory := None |})
  = false
  /\ init (F := Q) (Some "PID_3") windows_reading = Raise (SystemExit 1).
Proof.
  apply (startup_passes_over_unnamed_processes windows_reading
           {| pid := 3; usedGpuMemory := None |}).
  - left. reflexivity.
  - reflexivity.
  - intros q name [Hq|[Hq|[]]] Hn; subst q; vm_compute in Hn;
      inversion Hn; reflexivity.
Defined.

(** ** What one name gains in a tick *)

Lemma share_of_names (interval power_w : Q) (total : Z) (drv : Nvml)
    (l : list ProcessInfo) (k : string) :
  total <> 0 ->
  (share_of (map (fun p => (display_name drv p,
                            energy_delta interval power_w total p)) l) k
   == power_w
      * (inject_Z (sum (map reported_memory
                            (filter (fun p => String.eqb (display_name drv p) k)
                                    l)))
         / inject_Z total)
      * interval)%Q.
Proof.
  intros Ht.
  assert (Hq : ~ (inject_Z total == 0)%Q).
  { intros E. apply Ht. unfold Qeq in E. simpl in E. lia. }
  unfold share_of.
  induction l as [|p l IH]; cbn [map filter fst].
  - cbn. unfold sum. cbn. field. exact Hq.
  - destruct (String.eqb (display_name drv p) k); cbn [map snd Qsum].
    + rewrite IH, sum_cons, inject_Z_plus. unfold energy_delta.
      rewrite py_or_0_reported. field. exact Hq.
    + exact IH.
Qed.

(** In one tick a name gains the reading times the part of the
    denominator that the processes booked under this name hold together:
    processes sharing a name are added up, processes the filter skips count
    in the denominator only. *)
Theorem energy_gain_of_a_name (self : GPUPowerMonitor Q) (drv : Nvml)
    (now : Q) (k : string) :
  exists self',
    sample self drv now = Ok self'
    /\ (energy_of (process_energy self') k
        == energy_of (process_energy self) k
           + power_watts drv
             * (inject_Z (memory_of_name (target_process self) drv
                            (running_processes drv) k)
                / inject_Z (total_mem (running_processes drv)))
             * sample_interval self)%Q.
Proof.
  destruct (sample_tick_deltas self drv now) as [self' [Hok [_ [_ [_ He]]]]].
  exists self'. split; [exact Hok|].
  rewrite He, energy_of_merge. unfold tick_deltas, attribute.
  rewrite share_of_names by apply total_mem_nonzero.
  reflexivity.
Qed.

(** ** What a run leaves behind *)

Lemma share_of_app (a b : list (string * Q)) (k : string) :
  (share_of (a ++ b) k == share_of a k + share_of b k)%Q.
Proof.
  unfold share_of. rewrite filter_app, map_app. apply Qsum_app.
Qed.

Lemma share_of_tick (self : GPUPowerMonitor Q) (drv : Nvml) (k : string) :
  (share_of (tick_deltas self drv) k == tick_gain self drv k)%Q.
Proof.
  unfold tick_deltas, attribute, tick_gain, memory_of_name.
  apply share_of_names. apply total_mem_nonzero.
Qed.

Lemma share_of_run (self : GPUPowerMonitor Q) (ticks : list (Nvml * Q))
    (k : string) :
  (share_of (List.concat (map (fun t => tick_deltas self (fst t)) ticks)) k
   == Qsum (map (fun t => tick_gain self (fst t) k) ticks))%Q.
Proof.
  induction ticks as [|t ticks IH]; cbn [map List.concat Qsum].
  - reflexivity.
  - rewrite share_of_app, share_of_tick, IH. reflexivity.
Qed.

(** Stopping after n ticks: on the readings of these ticks, the loop has
    appended exactly one sample per tick, in order, each with the clock, the
    power in watts and the utilisation of its tick, and every name holds the
    energy it had plus, summed over these n ticks, the reading times the
    part of the denominator booked under that name; filter and interval are
    untouched. *)
Theorem run_loop_records (ticks : list (Nvml * Q)) (self : GPUPowerMonitor Q)
    (n : nat) :
  exists self',
    run_loop self (firstn n ticks) = Ok self'
    /\ target_process self' = target_process self
    /\ sample_interval self' = sample_interval self
    /\ samples self' = samples self ++ firstn n (map record_of ticks)
    /\ forall k,
         (energy_of (process_energy self') k
          == energy_of (process_energy self) k
             + Qsum (map (fun t =>
                            power_watts (fst t)
                            * (inject_Z (memory_of_name (target_process self)
                                           (fst t)
                                           (running_processes (fst t)) k)
                               / inject_Z (total_mem
                                             (running_processes (fst t))))
                            * sample_interval self)
                         (firstn n ticks)))%Q.
Proof.
  destruct (run_loop_state (firstn n ticks) self)
    as [self' [Hrun [Ht [Hi [Hs He]]]]].
  exists self'. split; [exact Hrun|]. split; [exact Ht|].
  split; [exact Hi|]. split.
  - rewrite Hs. f_equal. symmetry. apply firstn_map.
  - intros k. rewrite He, energy_of_merge, share_of_run. reflexivity.
Qed.

(** ** The unit of memory *)

Lemma reported_memory_scale (c : Z) (p : ProcessInfo) :
  reported_memory (scale_proc c p) = c * reported_memory p.
Proof.
  unfold reported_memory, scale_proc. cbn.
  destruct (usedGpuMemory p); cbn; lia.
Qed.

Lemma sum_mem_values_scale (c : Z) (procs : list ProcessInfo) :
  sum (mem_values (map (scale_proc c) procs)) = c * sum (mem_values procs).
Proof.
  rewrite !mem_values_reported.
  induction procs as [|p procs IH]; cbn [map].
  - unfold sum. cbn. lia.
  - rewrite !sum_cons, IH, reported_memory_scale. lia.
Qed.

Lemma total_mem_scale (c : Z) (procs : list ProcessInfo) :
  0 < c ->
  total_mem (map (scale_proc c) procs)
  = if sum (mem_values procs) =? 0 then 1 else c * total_mem procs.
Proof.
  intros Hc. unfold total_mem, py_or. rewrite sum_mem_values_scale.
  destruct (sum (mem_values procs) =? 0) eqn:E.
  - apply Z.eqb_eq in E. rewrite E, Z.mul_0_r. reflexivity.
  - apply Z.eqb_neq in E.
    destruct (c * sum (mem_values procs) =? 0) eqn:E'; [|reflexivity].
    apply Z.eqb_eq in E'. nia.
Qed.

Lemma unsigned_sum_zero (procs : list ProcessInfo) (p : ProcessInfo) :
  unsigned_memory procs = true ->
  sum (mem_values procs) = 0 ->
  In p procs -> reported_memory p = 0.
Proof.
  induction procs as [|q procs IH]; intros Hu Hs Hin; [destruct Hin|].
  cbn [mem_values map] in Hs. rewrite sum_cons in Hs.
  cbn [unsigned_memory forallb] in Hu.
  apply andb_prop in Hu. destruct Hu as [Hq Hr].
  pose proof (py_or_0_nonneg _ Hq) as H0.
  pose proof (sum_mem_values_nonneg procs Hr) as H1.
  unfold mem_values in H1.
  destruct Hin as [Hp|Hp].
  - subst q. rewrite <- py_or_0_reported. lia.
  - apply IH; [exact Hr | unfold mem_values; lia | exact Hp].
Qed.

Lemma energy_delta_scale (interval power_w : Q) (c : Z)
    (procs : list ProcessInfo) (p : ProcessInfo) :
  0 < c ->
  unsigned_memory procs = true ->
  In p procs ->
  (energy_delta interval power_w (total_mem (map (scale_proc c) procs))
     (scale_proc c p)
   == energy_delta interval power_w (total_mem procs) p)%Q.
Proof.
  intros Hc Hu Hin. rewrite (total_mem_scale c procs Hc).
  destruct (sum (mem_values procs) =? 0) eqn:E.
  - apply Z.eqb_eq in E.
    pose proof (unsigned_sum_zero procs p Hu E Hin) as Hz.
    rewrite !energy_delta_zero; [reflexivity | exact Hz |].
    rewrite reported_memory_scale, Hz. lia.
  - pose proof (total_mem_nonzero procs) as Ht.
    unfold energy_delta.
    rewrite !py_or_0_reported, reported_memory_scale, !inject_Z_mult.
    assert (Hq : ~ (inject_Z (total_mem procs) == 0)%Q).
    { intros Eq. apply Ht. unfold Qeq in Eq. simpl in Eq. lia. }
    assert (Hcq : ~ (inject_Z c == 0)%Q).
    { intros Eq. unfold Qeq in Eq. simpl in Eq. lia. }
    field. split; assumption.
Qed.

(** Two lists of deltas with the same names and equal amounts. *)
Lemma merge_same_deltas (ds ds' : list (string * Q)) (e : ledger Q) :
  Forall2 (fun x y => fst x = fst y /\ (snd x == snd y)%Q) ds ds' ->
  keys (merge e ds) = keys (merge e ds')
  /\ forall k, (energy_of (merge e ds) k == energy_of (merge e ds') k)%Q.
Proof.
  intros Hf. split.
  - assert (G : forall e1 e2 : ledger Q, keys e1 = keys e2 ->
                  keys (merge e1 ds) = keys (merge e2 ds')).
    { induction Hf as [|[k x] [k' y] ds ds' [Hk _] _ IH]; intros e1 e2 He.
      - exact He.
      - cbn [fst] in Hk. subst k'. unfold merge. cbn [fold_left fst snd].
        apply IH. rewrite !keys_iadd, He. reflexivity. }
    apply G. reflexivity.
  - intros k. rewrite !energy_of_merge.
    assert (G : (share_of ds k == share_of ds' k)%Q).
    { unfold share_of.
      induction Hf as [|[k0 x] [k' y] ds ds' [Hk Hx] _ IH]; [reflexivity|].
      cbn [fst snd] in Hk, Hx. subst k'. cbn [filter fst].
      destruct (String.eqb k0 k); cbn [map snd Qsum];
        [rewrite IH, Hx; reflexivity | exact IH]. }
    rewrite G. reflexivity.
Qed.

Lemma attribute_scale (target : option string) (interval power_w : Q)
    (c : Z) (drv : Nvml) (all procs : list ProcessInfo) :
  0 < c ->
  unsigned_memory all = true ->
  (forall p, In p procs -> In p all) ->
  Forall2 (fun x y => fst x = fst y /\ (snd x == snd y)%Q)
    (attribute target interval power_w (total_mem (map (scale_proc c) all))
       (map_processes (scale_proc c) drv) (map (scale_proc c) procs))
    (attribute target interval power_w (total_mem all) drv procs).
Proof.
  intros Hc Hu. unfold attribute, included.
  induction procs as [|p procs IH]; intros Hsub; cbn [map filter].
  - constructor.
  - rewrite (display_name_map (scale_proc c) drv p eq_refl).
    destruct (skipped target (display_name drv p)); cbn [negb map].
    + apply IH. intros q Hq. apply Hsub. right. exact Hq.
    + constructor.
      * cbn [fst snd].
        rewrite (display_name_map (scale_proc c) drv p eq_refl).
        split; [reflexivity|].
        apply energy_delta_scale; [exact Hc | exact Hu |].
        apply Hsub. left. reflexivity.
      * apply IH. intros q Hq. apply Hsub. right. exact Hq.
Qed.

(** The unit in which the driver counts memory does not matter: with every
    unsigned value multiplied by the same positive factor, a tick leaves the
    same names in the ledger with the same energies. *)
Theorem memory_unit_is_irrelevant (self : GPUPowerMonitor Q) (drv : Nvml)
    (now : Q) (c : Z) :
  0 < c ->
  unsigned_memory (running_processes drv) = true ->
  exists a b,
    sample self drv now = Ok a
    /\ sample self (map_processes (scale_proc c) drv) now = Ok b
    /\ samples b = samples a
    /\ keys (process_energy b) = keys (process_energy a)
    /\ forall k, (energy_of (process_energy b) k
                  == energy_of (process_energy a) k)%Q.
Proof.
  intros Hc Hu.
  destruct (sample_tick_deltas self drv now) as [a [Ha [_ [_ [Hsa Hea]]]]].
  destruct (sample_tick_deltas self (map_processes (scale_proc c) drv) now)
    as [b [Hb [_ [_ [Hsb Heb]]]]].
  exists a, b. split; [exact Ha|]. split; [exact Hb|].
  split; [rewrite Hsa, Hsb; reflexivity|].
  assert (Hrel : Forall2 (fun x y => fst x = fst y /\ (snd x == snd y)%Q)
                   (tick_deltas self (map_processes (scale_proc c) drv))
                   (tick_deltas self drv)).
  { unfold tick_deltas. rewrite running_processes_map.
    change (power_watts (map_processes (scale_proc c) drv))
      with (power_watts drv).
    apply attribute_scale; [exact Hc | exact Hu | tauto]. }
  rewrite Heb, Hea.
  destruct (merge_same_deltas _ _ (process_energy self) Hrel) as [Hk He].
  split; [exact Hk | exact He].
Qed.

Lemma memory_unit_is_irrelevant_witness :
  exists a b,
    sample (fresh None) (scenario 1) 0%Q = Ok a
    /\ sample (fresh None) (map_processes (scale_proc 1048576) (scenario 1))
         0%Q = Ok b
    /\ keys (process_energy b) = keys (process_energy a)
    /\ forall k, (energy_of (process_energy b) k
                  == energy_of (process_energy a) k)%Q.
Proof.
  destruct (memory_unit_is_irrelevant (fresh None) (scenario 1) 0%Q 1048576)
    as [a [b [Ha [Hb [_ [Hk He]]]]]].
  - reflexivity.
  - reflexivity.
  - exists a, b. auto.
Defined.

(** ** The properties of any arithmetic, at work *)

Lemma ledger_keys_over_run_witness :
  exists mid self' : GPUPowerMonitor Q,
    run_loop (fresh None) [(scenario 1000000, 0%Q)] = Ok mid
    /\ run_loop mid [(windows_reading, 1%Q)] = Ok self'
    /\ NoDup (keys (process_energy mid))
    /\ NoDup (keys (process_energy self'))
    /\ exists new, keys (process_energy self')
                   = keys (process_energy mid) ++ new.
Proof.
  eexists. eexists.
  split; [vm_compute; reflexivity|]. split; [vm_compute; reflexivity|].
  eapply (ledger_keys_over_run None (scenario 1000000) (fresh None) _ _
            [(scenario 1000000, 0%Q)] [(windows_reading, 1%Q)]);
    vm_compute; reflexivity.
Defined.

Lemma ledger_holds_only_matching_names_witness :
  exists monitor self' : GPUPowerMonitor float,
    init (Some "a") (scenario 1000000) = Ok monitor
    /\ run_loop monitor [(scenario 1000000, 0%float)] = Ok self'
    /\ forall k, In k (keys (process_energy self')) ->
                 skipped (Some "a") k = false.
Proof.
  eexists. eexists.
  split; [vm_compute; reflexivity|]. split; [vm_compute; reflexivity|].
  eapply (ledger_holds_only_matching_names "a" (scenario 1000000) _ _
            [(scenario 1000000, 0%float)]);
    vm_compute; reflexivity.
Defined.

Lemma report_lists_every_key_witness :
  exists (monitor m : GPUPowerMonitor float) (r : Report float),
    init None (scenario 1000000) = Ok monitor
    /\ run_loop monitor [(scenario 1000000, 0%float)] = Ok m
    /\ report m 1%float = Ok r
    /\ line_names (per_process r) = keys (process_energy m)
    /\ duration r = 1%float.
Proof.
  eexists. eexists. eexists.
  split; [vm_compute; reflexivity|]. split; [vm_compute; reflexivity|].
  split; [vm_compute; reflexivity|].
  eapply report_lists_every_key. vm_compute. reflexivity.
Defined.

(** ** Ticks on which the filter finds nothing *)

Section NoMatch.

Context {F : Type} `{PyFloat F}.

Lemma sample_loop_all_skipped (target : option string) (interval power_w : F)
    (total : Z) (drv : Nvml) (procs : list ProcessInfo) (energy : ledger F) :
  (forall p, In p procs -> skipped target (display_name drv p) = true) ->
  sample_loop target interval power_w total drv procs energy = Ok energy.
Proof.
  induction procs as [|p procs IH]; intros Hall.
  - reflexivity.
  - cbn [sample_loop]. rewrite (Hall p (or_introl eq_refl)).
    apply IH. intros q Hq. apply Hall. right. exact Hq.
Qed.

(** When the filter matches none of the processes of a tick (the tracked
    program has gone, say), the tick still records its sample but leaves the
    ledger exactly as it was, in any arithmetic: the measured total goes on
    growing while the booked energies stand still. *)
Theorem tick_without_match_books_nothing (self self' : GPUPowerMonitor F)
    (drv : Nvml) (now : F) :
  (forall p, In p (running_processes drv) ->
             skipped (target_process self) (display_name drv p) = true) ->
  sample self drv now = Ok self' ->
  process_energy self' = process_energy self
  /\ List.length (samples self') = S (List.length (samples self)).
Proof.
  intros Hall Hok.
  destruct (sample_fields _ _ _ _ Hok)
    as [_ [_ [power_w [energy' [_ [Hs [Hloop He]]]]]]].
  rewrite (sample_loop_all_skipped _ _ _ _ _ _ _ Hall) in Hloop.
  split; [congruence|].
  rewrite Hs, length_app. cbn. lia.
Qed.

End NoMatch.

Lemma tick_without_match_books_nothing_witness :
  exists self' : GPUPowerMonitor float,
    sample tracking_monitor (scenario 1000000) 0%float = Ok self'
    /\ process_energy self' = process_energy tracking_monitor
    /\ List.length (samples self')
       = S (List.length (samples tracking_monitor)).
Proof.
  eexists. split; [vm_compute; reflexivity|].
  eapply (tick_without_match_books_nothing tracking_monitor _
            (scenario 1000000) 0%float).
  - intros p [Hp|[Hp|[]]]; subst p; reflexivity.
  - vm_compute. reflexivity.
Defined.

(** ** The order of the process list *)

Lemma sum_perm (l l' : list Z) : Permutation l l' -> sum l = sum l'.
Proof.
  induction 1 as [|x l l' _ IH|x y l|l l' l'' _ IH1 _ IH2].
  - reflexivity.
  - rewrite !sum_cons, IH. reflexivity.
  - rewrite !sum_cons. lia.
  - congruence.
Qed.

Lemma filter_perm {A : Type} (f : A -> bool) (l l' : list A) :
  Permutation l l' ->
  Permutation (filter f l) (filter f l').
Proof.
  induction 1 as [|x l l' _ IH|x y l|l l' l'' _ IH1 _ IH2]; cbn [filter].
  - constructor.
  - destruct (f x); [constructor|]; exact IH.
  - destruct (f x), (f y); try apply Permutation_refl.
    constructor.
  - eapply perm_trans; eassumption.
Qed.

(** The order in which the driver lists the processes (graphics before
    compute, say, or the reverse) changes no amount: after a tick every name
    holds the same energy. *)
Theorem process_order_is_irrelevant (self : GPUPowerMonitor Q)
    (drv drv' : Nvml) (now : Q) :
  nvmlDeviceGetPowerUsage drv' = nvmlDeviceGetPowerUsage drv ->
  (forall n, nvmlSystemGetProcessName drv' n = nvmlSystemGetProcessName drv n) ->
  Permutation (running_processes drv) (running_processes drv') ->
  exists a b,
    sample self drv now = Ok a
    /\ sample self drv' now = Ok b
    /\ forall k, (energy_of (process_energy b) k
                  == energy_of (process_energy a) k)%Q.
Proof.
  intros Hpow Hnames Hperm.
  assert (Hdn : forall p, display_name drv' p = display_name drv p).
  { intros p. unfold display_name. rewrite Hnames. reflexivity. }
  assert (Hpw : power_watts drv' = power_watts drv).
  { unfold power_watts. rewrite Hpow. reflexivity. }
  assert (Htot : total_mem (running_processes drv')
                 = total_mem (running_processes drv)).
  { unfold total_mem. f_equal. f_equal. symmetry. apply sum_perm.
    unfold mem_values. apply Permutation_map. exact Hperm. }
  destruct (sample_tick_deltas self drv now) as [a [Ha [_ [_ [_ Hea]]]]].
  destruct (sample_tick_deltas self drv' now) as [b [Hb [_ [_ [_ Heb]]]]].
  exists a, b. split; [exact Ha|]. split; [exact Hb|].
  intros k. rewrite Heb, Hea, !energy_of_merge.
  unfold tick_deltas, attribute.
  rewrite !share_of_names by apply total_mem_nonzero.
  rewrite Hpw, Htot.
  assert (Hmem :
    sum (map reported_memory
           (filter (fun p => String.eqb (display_name drv' p) k)
              (included (target_process self) drv' (running_processes drv'))))
    = sum (map reported_memory
             (filter (fun p => String.eqb (display_name drv p) k)
                (included (target_process self) drv
                   (running_processes drv))))).
  { apply sum_perm. apply Permutation_map.
    rewrite (filter_ext _ (fun p => String.eqb (display_name drv p) k))
      by (intros p; rewrite Hdn; reflexivity).
    apply filter_perm. unfold included.
    rewrite (filter_ext _
               (fun p => negb (skipped (target_process self)
                                       (display_name drv p))))
      by (intros p; rewrite Hdn; reflexivity).
    apply filter_perm. apply Permutation_sym. exact Hperm. }
  rewrite Hmem. reflexivity.
Qed.

Lemma process_order_is_irrelevant_witness :
  exists a b,
    sample (fresh None) windows_reading 0%Q = Ok a
    /\ sample (fresh None) (swap_lists windows_reading) 0%Q = Ok b
    /\ forall k, (energy_of (process_energy b) k
                  == energy_of (process_energy a) k)%Q.
Proof.
  apply process_order_is_irrelevant.
  - reflexivity.
  - reflexivity.
  - apply Permutation_app_comm.
Defined.
